(** * Transaction ingestion and double-entry derivation

    A shallow embedding of the accounting core of the rental-fleet ERP:
    the journal derivation and the income statement of
    [components/AccountingView.tsx], and the currency parser, delimiter
    detection, line splitter and CSV materializer of the transaction
    manager component.

    Modelling conventions.
    - A JavaScript [string] is a [string] of 8-bit characters; case folding
      and the whitespace class are the ASCII ones.
    - A JavaScript [number] is an exact rational [Q]; [NaN] only arises as
      the result of [parseFloat] and is modelled by [None].  Numbers are
      compared with [==] (value equality), as [===] does on numbers.
    - [Math.random], [Date.now] and [new Date()] are oracles passed as
      arguments.
    - The audio samples of the voice agent are the one place where
      infinities and [NaN] can enter from outside; they have a type of their
      own, [VoiceAgent.float32]. *)

From Stdlib Require Import Bool List Arith ZArith QArith Qabs Qminmax.
From Stdlib Require Import Lia Lqa.
From Stdlib Require Import Ascii String DecimalString DecimalNat.
From Stdlib Require Import Permutation Sorted.
Import ListNotations.

Open Scope string_scope.

(** ** JavaScript string primitives *)

Module JS.

Definition charCode (c : ascii) : nat := nat_of_ascii c.

(** The white space class of [String.prototype.trim] and of the regular
    expression escape [\s], restricted to ASCII. *)
Definition isWhitespace (c : ascii) : bool :=
  let n := charCode c in
  (n =? 9)%nat || (n =? 10)%nat || (n =? 11)%nat || (n =? 12)%nat
  || (n =? 13)%nat || (n =? 32)%nat.

Definition isDigit (c : ascii) : bool :=
  let n := charCode c in (48 <=? n)%nat && (n <=? 57)%nat.

Definition isEmpty (s : string) : bool :=
  match s with EmptyString => true | String _ _ => false end.

Fixpoint trimStart (s : string) : string :=
  match s with
  | EmptyString => EmptyString
  | String c r => if isWhitespace c then trimStart r else s
  end.

Fixpoint trimEnd (s : string) : string :=
  match s with
  | EmptyString => EmptyString
  | String c r =>
      let r' := trimEnd r in
      if isWhitespace c && isEmpty r' then EmptyString else String c r'
  end.

Definition trim (s : string) : string := trimEnd (trimStart s).

Definition lowerChar (c : ascii) : ascii :=
  let n := charCode c in
  if (65 <=? n)%nat && (n <=? 90)%nat then ascii_of_nat (n + 32) else c.

Fixpoint toLowerCase (s : string) : string :=
  match s with
  | EmptyString => EmptyString
  | String c r => String (lowerChar c) (toLowerCase r)
  end.

(** [s.includes(k)] *)
Fixpoint includes (s k : string) : bool :=
  prefix k s
  || match s with
     | EmptyString => false
     | String _ r => includes r k
     end.

(** [s.split(sep)] for a one-character separator. *)
Fixpoint split (sep : ascii) (s : string) : list string :=
  match s with
  | EmptyString => [EmptyString]
  | String c r =>
      if Ascii.eqb c sep then EmptyString :: split sep r
      else match split sep r with
           | h :: t => String c h :: t
           | [] => [String c EmptyString]
           end
  end.

(** [(s.match(/c/g) || []).length] *)
Fixpoint countChar (c : ascii) (s : string) : nat :=
  match s with
  | EmptyString => 0
  | String d r => (if Ascii.eqb d c then 1 else 0) + countChar c r
  end.

(** [s.replace(/[^...]/g, '')]: keep the characters satisfying [keep]. *)
Fixpoint keepChars (keep : ascii -> bool) (s : string) : string :=
  match s with
  | EmptyString => EmptyString
  | String c r =>
      if keep c then String c (keepChars keep r) else keepChars keep r
  end.

(** [s.replace(/c/g, '')] *)
Definition removeAll (c : ascii) (s : string) : string :=
  keepChars (fun d => negb (Ascii.eqb d c)) s.

(** [s.replace(c, d)] with a string pattern: first occurrence only. *)
Fixpoint replaceFirst (c d : ascii) (s : string) : string :=
  match s with
  | EmptyString => EmptyString
  | String e r =>
      if Ascii.eqb e c then String d r else String e (replaceFirst c d r)
  end.

(** [s.indexOf(c)], [-1] when absent. *)
Fixpoint indexOfFrom (c : ascii) (s : string) (i : Z) : Z :=
  match s with
  | EmptyString => (-1)%Z
  | String d r => if Ascii.eqb d c then i else indexOfFrom c r (i + 1)%Z
  end.

Definition indexOf (c : ascii) (s : string) : Z := indexOfFrom c s 0%Z.

(** [s.lastIndexOf(c)], [-1] when absent. *)
Fixpoint lastIndexOfFrom (c : ascii) (s : string) (i last : Z) : Z :=
  match s with
  | EmptyString => last
  | String d r =>
      lastIndexOfFrom c r (i + 1)%Z (if Ascii.eqb d c then i else last)
  end.

Definition lastIndexOf (c : ascii) (s : string) : Z :=
  lastIndexOfFrom c s 0%Z (-1)%Z.

Definition startsWithChar (c : ascii) (s : string) : bool :=
  match s with
  | String d _ => Ascii.eqb d c
  | EmptyString => false
  end.

Fixpoint endsWithChar (c : ascii) (s : string) : bool :=
  match s with
  | EmptyString => false
  | String d EmptyString => Ascii.eqb d c
  | String _ r => endsWithChar c r
  end.

Definition dropFirst (s : string) : string :=
  match s with
  | EmptyString => EmptyString
  | String _ r => r
  end.

Fixpoint dropLast (s : string) : string :=
  match s with
  | EmptyString => EmptyString
  | String _ EmptyString => EmptyString
  | String c r => String c (dropLast r)
  end.

(** [s.slice(1, -1)] *)
Definition slice_1_m1 (s : string) : string := dropLast (dropFirst s).

Fixpoint dropChars (n : nat) (s : string) : string :=
  match n, s with
  | S m, String _ r => dropChars m r
  | _, _ => s
  end.

(** The double quote character. *)
Definition quoteChar : ascii := ascii_of_nat 34.

(** [x < y] on numbers. *)
Definition Qltb (x y : Q) : bool := negb (Qle_bool y x).

(** [arr.findIndex(p)], [-1] when no element satisfies [p]. *)
Fixpoint findIndexFrom {A : Type} (p : A -> bool) (l : list A) (i : Z) : Z :=
  match l with
  | [] => (-1)%Z
  | x :: r => if p x then i else findIndexFrom p r (i + 1)%Z
  end.

Definition findIndex {A : Type} (p : A -> bool) (l : list A) : Z :=
  findIndexFrom p l 0%Z.

(** Template interpolation of a non-negative integer. *)
Definition natToString (n : nat) : string :=
  NilEmpty.string_of_uint (Nat.to_uint n).

(** *** [parseFloat]

    Both call sites first delete every character outside [0-9 . -], so the
    exponent and [Infinity] forms of the JavaScript grammar cannot occur;
    the model covers optional leading white space, an optional sign, and
    digits with an optional fraction.  [None] is [NaN]. *)

Fixpoint spanDigits (s : string) : string * string :=
  match s with
  | EmptyString => (EmptyString, EmptyString)
  | String c r =>
      if isDigit c then let (d, rest) := spanDigits r in (String c d, rest)
      else (EmptyString, s)
  end.

Fixpoint digitsValue (acc : Z) (s : string) : Z :=
  match s with
  | EmptyString => acc
  | String c r => digitsValue (10 * acc + Z.of_nat (charCode c - 48))%Z r
  end.

Definition decimalValue (intPart fracPart : string) : Q :=
  Qmake (digitsValue 0 (intPart ++ fracPart))
        (Z.to_pos (10 ^ Z.of_nat (String.length fracPart))).

Definition parseUnsigned (s : string) : option Q :=
  let (intPart, r1) := spanDigits s in
  match r1 with
  | String "." r2 =>
      let (fracPart, _) := spanDigits r2 in
      if isEmpty intPart && isEmpty fracPart then None
      else Some (decimalValue intPart fracPart)
  | _ => if isEmpty intPart then None else Some (decimalValue intPart "")
  end.

Definition parseFloat (s : string) : option Q :=
  match trimStart s with
  | String "-" r => option_map Qopp (parseUnsigned r)
  | String "+" r => parseUnsigned r
  | t => parseUnsigned t
  end.

(** [arr.sort(cmp)], a stable sort, rendered as a stable insertion sort;
    [comesAfter a b] is [cmp(a, b) > 0]. *)
Section Sort.

Context {A : Type} (comesAfter : A -> A -> bool).

Fixpoint insertSorted (x : A) (l : list A) : list A :=
  match l with
  | [] => [x]
  | y :: r => if comesAfter x y then y :: insertSorted x r else x :: y :: r
  end.

Fixpoint sort (l : list A) : list A :=
  match l with
  | [] => []
  | x :: r => insertSorted x (sort r)
  end.

End Sort.

End JS.

(** ** Data model ([types.ts]) *)

Inductive Category := Revenue | Expense | Asset | Liability | Equity.

Module Transaction.
Record t := mk
  { id : string;
    date : string;
    description : string;
    category : Category;
    amount : Q;
    reference : string;
    contraAccount : option string }.
End Transaction.

Module JournalLine.
Record t := mk
  { accountId : string;
    accountName : string;
    debit : Q;
    credit : Q }.
End JournalLine.

Module JournalEntry.
Record t := mk
  { id : string;
    date : string;
    reference : string;
    description : string;
    lines : list JournalLine.t }.
End JournalEntry.

(** [Account.type] ranges over the same five literals as
    [Transaction.category]. *)
Module Account.
Record t := mk
  { code : string;
    name : string;
    type : Category;
    category : string }.
End Account.

(** [CHART_OF_ACCOUNTS] of [constants.ts]. *)
Definition CHART_OF_ACCOUNTS : list Account.t :=
  [ Account.mk "1001" "Cash on Hand" Asset "Current Asset";
    Account.mk "1002" "Bank BCA" Asset "Current Asset";
    Account.mk "1100" "Accounts Receivable" Asset "Current Asset";
    Account.mk "1200" "Motorcycle Fleet Inventory" Asset "Fixed Asset";
    Account.mk "2000" "Accounts Payable" Liability "Current Liability";
    Account.mk "3000" "Owner Capital" Equity "Equity";
    Account.mk "4000" "Rental Revenue" Revenue "Operating Revenue";
    Account.mk "5001" "Maintenance Expense" Expense "COGS";
    Account.mk "5002" "Rent Expense (Garage)" Expense "Operating Expense" ].

Definition sumDebit (ls : list JournalLine.t) : Q :=
  fold_left (fun acc l => acc + JournalLine.debit l)%Q ls 0%Q.

Definition sumCredit (ls : list JournalLine.t) : Q :=
  fold_left (fun acc l => acc + JournalLine.credit l)%Q ls 0%Q.

(** [debit == 0 XOR credit == 0] *)
Definition debitXorCredit (l : JournalLine.t) : bool :=
  xorb (Qeq_bool (JournalLine.debit l) 0) (Qeq_bool (JournalLine.credit l) 0).

(** ** The accounting view: journal derivation, import and report *)

Module AccountingView.

(** [tx.contraAccount === '2000'], the field being optional. *)
Definition contraIs2000 (contraAccount : option string) : bool :=
  match contraAccount with
  | Some c => String.eqb c "2000"
  | None => false
  end.

(** The body of [transactions.map(tx => ...)] in [systemJournalEntries]. *)
Definition systemJournalEntry (tx : Transaction.t) : JournalEntry.t :=
  let absAmount := Qabs (Transaction.amount tx) in
  let lines :=
    match Transaction.category tx with
    | Revenue =>
        [ JournalLine.mk "1002" "Bank BCA" absAmount 0;
          JournalLine.mk "4000" "Rental Revenue" 0 absAmount ]
    | Expense =>
        let lower := JS.toLowerCase (Transaction.description tx) in
        let expenseAccount :=
          if JS.includes lower "maintenance" || JS.includes lower "parts"
          then ("5001", "Maintenance Expense")
          else ("5002", "Rent Expense (Garage)") in
        let debitLine :=
          JournalLine.mk (fst expenseAccount) (snd expenseAccount) absAmount 0 in
        let creditLine :=
          if contraIs2000 (Transaction.contraAccount tx)
          then JournalLine.mk "2000" "Accounts Payable" 0 absAmount
          else JournalLine.mk "1002" "Bank BCA" 0 absAmount in
        [ debitLine; creditLine ]
    | Asset =>
        [ JournalLine.mk "1200" "Motorcycle Fleet Inventory" absAmount 0;
          JournalLine.mk "1002" "Bank BCA" 0 absAmount ]
    | Liability | Equity => []
    end in
  JournalEntry.mk (Transaction.id tx) (Transaction.date tx)
    (Transaction.reference tx) (Transaction.description tx) lines.

Definition systemJournalEntries (transactions : list Transaction.t)
  : list JournalEntry.t :=
  map systemJournalEntry transactions.

(** *** Combined journal

    [[...uploadedEntries, ...systemJournalEntries].sort((a, b) =>
       new Date(b.date).getTime() - new Date(a.date).getTime())].
    [getTime] stands for [new Date(s).getTime()], [None] being [NaN] (an
    invalid date).  [Array.prototype.sort] is stable; it is rendered as a
    stable insertion sort, and a [NaN] comparison counts as [0]. *)

Section CombinedJournal.

Variable getTime : string -> option Z.

Definition compareByDate (a b : JournalEntry.t) : option Z :=
  match getTime (JournalEntry.date b), getTime (JournalEntry.date a) with
  | Some tb, Some ta => Some (tb - ta)%Z
  | _, _ => None
  end.

Definition comesAfter (a b : JournalEntry.t) : bool :=
  match compareByDate a b with
  | Some d => (0 <? d)%Z
  | None => false
  end.

Fixpoint insertEntry (x : JournalEntry.t) (l : list JournalEntry.t)
  : list JournalEntry.t :=
  match l with
  | [] => [x]
  | y :: r => if comesAfter x y then y :: insertEntry x r else x :: y :: r
  end.

Fixpoint sortEntries (l : list JournalEntry.t) : list JournalEntry.t :=
  match l with
  | [] => []
  | x :: r => insertEntry x (sortEntries r)
  end.

Definition allJournalEntries (uploadedEntries systemEntries : list JournalEntry.t)
  : list JournalEntry.t :=
  sortEntries (uploadedEntries ++ systemEntries)%list.

End CombinedJournal.

(** *** Income statement *)





(** *** Journal import ([parseCSV] of the accounting view) *)

(** [parseFloat(str.replace(/[^0-9.-]+/g,"")) || 0] *)
Definition cleanNumber (str : string) : Q :=
  let kept :=
    JS.keepChars
      (fun c => JS.isDigit c || Ascii.eqb c "." || Ascii.eqb c "-") str in
  match JS.parseFloat kept with
  | Some v => v
  | None => 0
  end.

Definition mapAccount (desc : string) : string :=
  let d := JS.toLowerCase desc in
  if JS.includes d "revenue" || JS.includes d "sales" then "4000"
  else if JS.includes d "bank" || JS.includes d "bca" then "1002"
  else if JS.includes d "cash" then "1001"
  else if JS.includes d "maintenance" || JS.includes d "service" then "5001"
  else if JS.includes d "rent" && JS.includes d "expense" then "5002"
  else "9999".

(** [tempGroups] is a plain object used as a map from reference to entry:
    own properties in insertion order. *)
Definition Groups := list (string * JournalEntry.t).

Fixpoint ownProperty (ref : string) (g : Groups) : option JournalEntry.t :=
  match g with
  | [] => None
  | (k, e) :: r => if String.eqb k ref then Some e else ownProperty ref r
  end.

(** Property names every plain object inherits from [Object.prototype]:
    for these [tempGroups[ref]] is truthy without an own property. *)
Definition objectPrototypeKeys : list string :=
  [ "constructor"; "__defineGetter__"; "__defineSetter__"; "hasOwnProperty";
    "__lookupGetter__"; "__lookupSetter__"; "isPrototypeOf";
    "propertyIsEnumerable"; "toString"; "valueOf"; "__proto__";
    "toLocaleString" ].

Definition inherited (ref : string) : bool :=
  existsb (String.eqb ref) objectPrototypeKeys.

Definition pushLineTo (line : JournalLine.t) (e : JournalEntry.t)
  : JournalEntry.t :=
  JournalEntry.mk (JournalEntry.id e) (JournalEntry.date e)
    (JournalEntry.reference e) (JournalEntry.description e)
    (JournalEntry.lines e ++ [line])%list.

Fixpoint pushLine (ref : string) (line : JournalLine.t) (g : Groups) : Groups :=
  match g with
  | [] => []
  | (k, e) :: r =>
      if String.eqb k ref then (k, pushLineTo line e) :: r
      else (k, e) :: pushLine ref line r
  end.

(** A canonical array index: property keys of this form are enumerated
    first, in ascending numeric order, by [Object.values]. *)
Definition isArrayIndex (k : string) : bool :=
  negb (JS.isEmpty k)
  && JS.isEmpty (snd (JS.spanDigits k))
  && (String.eqb k "0" || negb (JS.startsWithChar "0" k))
  && (JS.digitsValue 0 k <=? 4294967294)%Z.

Fixpoint insertIndexed (x : string * JournalEntry.t) (g : Groups) : Groups :=
  match g with
  | [] => [x]
  | y :: r =>
      if (JS.digitsValue 0 (fst y) <? JS.digitsValue 0 (fst x))%Z
      then y :: insertIndexed x r
      else x :: y :: r
  end.

Definition objectValues (g : Groups) : list JournalEntry.t :=
  let indexed := filter (fun p => isArrayIndex (fst p)) g in
  let named := filter (fun p => negb (isArrayIndex (fst p))) g in
  map snd (fold_right insertIndexed [] indexed ++ named)%list.

Section JournalImport.

(** [Math.random().toString(36).substr(2, 5)] drawn while reading line [i]. *)
Variable randomSuffix : nat -> string.

(** One iteration of the loop over [lines[i]]; [None] is the [TypeError]
    raised by [tempGroups[ref].lines.push] on an inherited property. *)
Definition importRow (i : nat) (line : string) (tempGroups : Groups)
  : option Groups :=
  let row := JS.trim line in
  if JS.isEmpty row then Some tempGroups
  else
    let cols := map JS.trim (JS.split "," row) in
    match cols with
    | date :: ref :: descRaw :: debitStr :: creditStr :: _ =>
        let debit := cleanNumber debitStr in
        let credit := cleanNumber creditStr in
        let desc := JS.removeAll JS.quoteChar descRaw in
        let accountId := mapAccount desc in
        let line := JournalLine.mk accountId desc debit credit in
        match ownProperty ref tempGroups with
        | Some _ => Some (pushLine ref line tempGroups)
        | None =>
            if inherited ref then None
            else
              let fresh :=
                JournalEntry.mk ("CSV-" ++ ref ++ "-" ++ randomSuffix i)
                  date ref "Imported Transaction" [] in
              Some (pushLine ref line (tempGroups ++ [(ref, fresh)])%list)
        end
    | _ => Some tempGroups
    end.

Fixpoint importRows (i : nat) (lines : list string) (tempGroups : Groups)
  : option Groups :=
  match lines with
  | [] => Some tempGroups
  | line :: rest =>
      match importRow i line tempGroups with
      | Some g => importRows (S i) rest g
      | None => None
      end
  end.

(** The new entries handed to [setUploadedEntries]; [None] when the
    [catch] branch is taken and nothing is imported. *)
Definition parseCSV (csvText : string) : option (list JournalEntry.t) :=
  let lines := JS.split "010" csvText in
  option_map objectValues (importRows 1 (tl lines) []).

Definition handleFileUpload (csvText : string)
  (uploadedEntries : list JournalEntry.t) : list JournalEntry.t :=
  match parseCSV csvText with
  | Some newEntries => (uploadedEntries ++ newEntries)%list
  | None => uploadedEntries
  end.

End JournalImport.

End AccountingView.

(** ** The transaction manager: currency parser and CSV materializer *)

Module TransactionManager.

(** [clean.replace(/^(Rp\.?|IDR|USD)\s?/i, '')] *)
Definition stripCurrencyMarker (s : string) : string :=
  let l := JS.toLowerCase s in
  let afterMarker :=
    if prefix "rp" l then
      let r := JS.dropChars 2 s in
      Some (if JS.startsWithChar "." r then JS.dropFirst r else r)
    else if prefix "idr" l || prefix "usd" l then Some (JS.dropChars 3 s)
    else None in
  match afterMarker with
  | Some (String c r) => if JS.isWhitespace c then r else String c r
  | Some EmptyString => EmptyString
  | None => s
  end.

(** Step 4 of [parseCurrency]: Indonesian versus US separators. *)
Definition resolveSeparators (clean : string) : string :=
  if (JS.indexOf "," clean >? -1)%Z && (JS.indexOf "." clean >? -1)%Z then
    if (JS.lastIndexOf "," clean >? JS.lastIndexOf "." clean)%Z
    then JS.replaceFirst "," "." (JS.removeAll "." clean)
    else JS.removeAll "," clean
  else if (JS.indexOf "," clean >? -1)%Z then
    let parts := JS.split "," clean in
    if (1 <? List.length parts)%nat
       && (String.length (last parts EmptyString) =? 3)%nat
    then JS.removeAll "," clean
    else JS.replaceFirst "," "." clean
  else if (JS.indexOf "." clean >? -1)%Z then JS.removeAll "." clean
  else clean.

(** Steps 1 to 5 of [parseCurrency]: the sign flag and the string handed
    to [parseFloat]. *)
Definition currencyDigits (str : string) : bool * string :=
  let clean := JS.trim str in
  let isParentheses :=
    JS.startsWithChar "(" clean && JS.endsWithChar ")" clean in
  let clean := if isParentheses then JS.slice_1_m1 clean else clean in
  let clean := stripCurrencyMarker clean in
  let clean := JS.keepChars (fun c => negb (JS.isWhitespace c)) clean in
  let isNegative := isParentheses || JS.startsWithChar "-" clean in
  let clean := if JS.startsWithChar "-" clean then JS.dropFirst clean else clean in
  let clean := resolveSeparators clean in
  let clean := JS.keepChars (fun c => JS.isDigit c || Ascii.eqb c ".") clean in
  (isNegative, clean).

Definition parseCurrency (str : string) : Q :=
  if JS.isEmpty str then 0
  else
    let (isNegative, clean) := currencyDigits str in
    match JS.parseFloat clean with
    | None => 0
    | Some val => if isNegative then - val else val
    end.

Definition detectDelimiter (text : string) : ascii :=
  let lines := JS.split "010" text in
  if (List.length lines <? 2)%nat then ","%char
  else
    let line := hd EmptyString lines in
    let tabs := JS.countChar "009" line in
    let semicolons := JS.countChar ";" line in
    let commas := JS.countChar "," line in
    if (commas <? tabs)%nat && (semicolons <? tabs)%nat then "009"%char
    else if (commas <? semicolons)%nat then ";"%char
    else ","%char.

(** The loop of [splitCSVLine] from position [i] on: [line] is the part
    still to read. *)
Fixpoint splitLoop (delimiter : ascii) (line : string) (current : string)
  (inQuotes : bool) (result : list string) : list string :=
  match line with
  | EmptyString => (result ++ [JS.trim current])%list
  | String char rest =>
      if Ascii.eqb char JS.quoteChar then
        match rest with
        | String next rest' =>
            if inQuotes && Ascii.eqb next JS.quoteChar
            then splitLoop delimiter rest' (current ++ String JS.quoteChar "")
                   inQuotes result
            else splitLoop delimiter rest current (negb inQuotes) result
        | EmptyString => splitLoop delimiter rest current (negb inQuotes) result
        end
      else if Ascii.eqb char delimiter && negb inQuotes then
        splitLoop delimiter rest EmptyString inQuotes
          (result ++ [JS.trim current])%list
      else splitLoop delimiter rest (current ++ String char "") inQuotes result
  end.

Definition splitCSVLine (line : string) (delimiter : ascii) : list string :=
  splitLoop delimiter line EmptyString false [].

(** *** Column roles *)

Record ColumnRoles := mkRoles
  { idxDate : Z;
    idxRef : Z;
    idxDesc : Z;
    idxDebit : Z;
    idxCredit : Z;
    idxAmount : Z }.

Definition getIdx (headers : list string) (keywords : list string) : Z :=
  JS.findIndex (fun h => existsb (fun k => JS.includes h k) keywords) headers.

Definition inferColumns (headers : list string) : ColumnRoles :=
  mkRoles
    (getIdx headers ["date"; "tanggal"; "tgl"])
    (getIdx headers ["ref"; "nomor"; "no."; "code"])
    (getIdx headers ["description"; "deskripsi"; "keterangan"; "account"; "akun"])
    (getIdx headers ["debit"; "masuk"])
    (getIdx headers ["credit"; "kredit"; "keluar"])
    (getIdx headers ["amount"; "jumlah"; "nilai"; "total"]).

(** [cols[k]] for [k] within bounds. *)
Definition col (cols : list string) (k : nat) : string := nth k cols EmptyString.

(** [val(idx)]: the cell, or the empty string out of range. *)
Definition val (cols : list string) (idx : Z) : string :=
  if (0 <=? idx)%Z && (idx <? Z.of_nat (List.length cols))%Z
  then col cols (Z.to_nat idx) else EmptyString.

(** [let x = val(idx); if (!x && cols.length > k) x = cols[k];] *)
Definition valOrColumn (cols : list string) (idx : Z) (k : nat) : string :=
  let x := val cols idx in
  if JS.isEmpty x && (k <? List.length cols)%nat then col cols k else x.

(** The [credit > 0] / [debit > 0] cascade, starting from
    [finalAmount = 0], [category = 'Revenue']. *)
Definition fromDebitCredit (debit credit : Q) : Q * Category :=
  if JS.Qltb 0 credit then (credit, Revenue)
  else if JS.Qltb 0 debit then ((- debit)%Q, Expense)
  else (0%Q, Revenue).

(** Step 4 of the row loop: amount and provisional category. *)
Definition calculateAmount (roles : ColumnRoles) (cols : list string)
  : Q * Category :=
  if (0 <=? idxDebit roles)%Z && (0 <=? idxCredit roles)%Z then
    fromDebitCredit (parseCurrency (val cols (idxDebit roles)))
                    (parseCurrency (val cols (idxCredit roles)))
  else if (0 <=? idxAmount roles)%Z then
    (parseCurrency (val cols (idxAmount roles)), Revenue)
  else if (5 <=? List.length cols)%nat then
    fromDebitCredit (parseCurrency (col cols 3)) (parseCurrency (col cols 4))
  else if (List.length cols =? 4)%nat then
    (parseCurrency (col cols 3), Revenue)
  else (0%Q, Revenue).

Definition assetKeyword (desc : string) : bool :=
  let lowerDesc := JS.toLowerCase desc in
  JS.includes lowerDesc "asset" || JS.includes lowerDesc "aset"
  || JS.includes lowerDesc "motor" || JS.includes lowerDesc "unit".

(** "Determine Category from Description if Amount is negative". *)
Definition refineCategory (finalAmount : Q) (desc : string)
  (category : Category) : Category :=
  if JS.Qltb finalAmount 0 then
    if assetKeyword desc then Asset else Expense
  else if JS.Qltb 0 finalAmount then Revenue
  else category.

Definition orElse (s fallback : string) : string :=
  if JS.isEmpty s then fallback else s.

Section Materializer.

(** [Date.now()] and [new Date().toISOString().split('T')[0]] as read
    while handling line [i]. *)
Variable dateNow : nat -> nat.
Variable today : nat -> string.

(** One iteration of the row loop: the transaction pushed, if any. *)
Definition materializeRow (roles : ColumnRoles) (i : nat) (cols : list string)
  : option Transaction.t :=
  let date := valOrColumn cols (idxDate roles) 0 in
  let ref := valOrColumn cols (idxRef roles) 1 in
  let desc := valOrColumn cols (idxDesc roles) 2 in
  let (finalAmount, category) := calculateAmount roles cols in
  let category := refineCategory finalAmount desc category in
  if negb (Qeq_bool finalAmount 0) || negb (JS.isEmpty desc) then
    Some (Transaction.mk
            ("TX-CSV-" ++ JS.natToString (dateNow i) ++ "-" ++ JS.natToString i)
            (orElse date (today i))
            (orElse desc "Imported Transaction")
            category
            finalAmount
            (orElse ref ("CSV-" ++ JS.natToString i))
            (Some "1002"))
  else None.

(** The loop variables [newTransactions], [parsedCount], [revCount] and
    [expCount]. *)
Record ImportState := mkState
  { newTransactions : list Transaction.t;
    parsedCount : nat;
    revCount : nat;
    expCount : nat }.

Definition initialState : ImportState := mkState [] 0 0 0.

Definition stepRow (roles : ColumnRoles) (delimiter : ascii) (i : nat)
  (line : string) (st : ImportState) : ImportState :=
  match materializeRow roles i (splitCSVLine line delimiter) with
  | Some tx =>
      let positive := JS.Qltb 0 (Transaction.amount tx) in
      mkState (newTransactions st ++ [tx])%list
        (S (parsedCount st))
        (if positive then S (revCount st) else revCount st)
        (if positive then expCount st else S (expCount st))
  | None => st
  end.

Fixpoint rowLoop (roles : ColumnRoles) (delimiter : ascii) (i : nat)
  (lines : list string) (st : ImportState) : ImportState :=
  match lines with
  | [] => st
  | line :: rest => rowLoop roles delimiter (S i) rest (stepRow roles delimiter i line st)
  end.

(** What the caller observes of [parseCSV]: nothing for a file without a
    non-blank line, the batch handed to [onAddBatchTransactions] together
    with the figures of the success message, or the "No valid data found"
    message.  No statement of the body can raise, so the [catch] branch
    has no counterpart. *)
Inductive ImportOutcome :=
| NothingRead
| ImportSuccessful (batch : list Transaction.t) (delimiter : ascii)
    (total revenueItems expenseItems : nat)
| NoValidData.

Definition parseCSV (csvText : string) : ImportOutcome :=
  let lines :=
    filter (fun l => (0 <? String.length (JS.trim l))%nat)
           (JS.split "010" csvText) in
  match lines with
  | [] => NothingRead
  | header :: rows =>
      let delimiter := detectDelimiter csvText in
      let headers := map JS.toLowerCase (splitCSVLine header delimiter) in
      let roles := inferColumns headers in
      let st := rowLoop roles delimiter 1 rows initialState in
      if (0 <? List.length (newTransactions st))%nat
      then ImportSuccessful (newTransactions st) delimiter
             (parsedCount st) (revCount st) (expCount st)
      else NoValidData
  end.

(** The transactions a file contributes to the transaction store. *)
Definition importedTransactions (csvText : string) : list Transaction.t :=
  match parseCSV csvText with
  | ImportSuccessful batch _ _ _ _ => batch
  | _ => []
  end.

End Materializer.

(** *** Manual entry and listing *)

(** The form state, a [Partial<Transaction>]; the category always holds one
    of the values of the select box.  An [amount] of [None] is the [NaN]
    left by an emptied number field. *)
Record FormData := mkForm
  { formDate : option string;
    formCategory : Category;
    formAmount : option Q;
    formDescription : option string;
    formReference : option string;
    formContraAccount : option string }.

(** [x || fallback] on an optional string. *)
Definition stringOr (x : option string) (fallback : string) : string :=
  match x with
  | Some s => orElse s fallback
  | None => fallback
  end.

(** [formData.amount || 0] *)
Definition amountOrZero (x : option Q) : Q :=
  match x with
  | Some q => q
  | None => 0
  end.

(** The transaction [handleSubmit] passes to [onAddTransaction];
    [dateNow] is [Date.now()] and [randomRef] is
    [Math.floor(Math.random() * 1000)]. *)
Definition handleSubmit (dateNow randomRef : nat) (formData : FormData)
  : Transaction.t :=
  Transaction.mk
    ("TX-" ++ JS.natToString dateNow)
    (stringOr (formDate formData) "")
    (stringOr (formDescription formData) "")
    (formCategory formData)
    (match formCategory formData with
     | Expense | Asset => - Qabs (amountOrZero (formAmount formData))
     | _ => Qabs (amountOrZero (formAmount formData))
     end)
    (stringOr (formReference formData) ("REF-" ++ JS.natToString randomRef))
    (formContraAccount formData).

Section TransactionList.

(** [new Date(s).getTime()], [None] being [NaN]. *)
Variable getTime : string -> option Z.

Definition newerFirst (a b : Transaction.t) : bool :=
  match getTime (Transaction.date b), getTime (Transaction.date a) with
  | Some tb, Some ta => (0 <? tb - ta)%Z
  | _, _ => false
  end.

Definition matchesSearch (searchTerm : string) (t : Transaction.t) : bool :=
  JS.includes (JS.toLowerCase (Transaction.description t))
              (JS.toLowerCase searchTerm)
  || JS.includes (JS.toLowerCase (Transaction.reference t))
                 (JS.toLowerCase searchTerm).

Definition filteredTransactions (transactions : list Transaction.t)
  (searchTerm : string) : list Transaction.t :=
  JS.sort newerFirst (filter (matchesSearch searchTerm) transactions).

End TransactionList.

End TransactionManager.

(** ** The transaction store ([App.tsx]) *)

Module App.



End App.

(** ** The voice agent: PCM audio conversion *)

Module VoiceAgent.

(** An element of a [Float32Array].  The finite values are exact
    rationals: the products by [0x8000] and [0x7FFF] and the quotient by
    [32768.0] below are exact in double precision on single-precision
    operands, so no rounding is lost by the model. *)
Inductive float32 : Type :=
| Finite (value : Q)
| PosInfinity
| NegInfinity
| NaN.

(** [Math.min(bound, x)] and [Math.max(bound, x)] for a finite [bound]. *)
Definition Math_min (bound : Q) (x : float32) : float32 :=
  match x with
  | Finite q => Finite (Qmin bound q)
  | PosInfinity => Finite bound
  | NegInfinity => NegInfinity
  | NaN => NaN
  end.

Definition Math_max (bound : Q) (x : float32) : float32 :=
  match x with
  | Finite q => Finite (Qmax bound q)
  | PosInfinity => PosInfinity
  | NegInfinity => Finite bound
  | NaN => NaN
  end.

(** [s < 0 ? s * 0x8000 : s * 0x7FFF]; a comparison with [NaN] is false. *)
Definition scale (s : float32) : float32 :=
  match s with
  | Finite q => if JS.Qltb q 0 then Finite (q * 32768) else Finite (q * 32767)
  | PosInfinity => PosInfinity
  | NegInfinity => NegInfinity
  | NaN => NaN
  end.

(** Truncation towards zero. *)
Definition truncate (q : Q) : Z := Z.quot (Qnum q) (Z.pos (Qden q)).

(** The two's complement reading of a 16-bit pattern. *)
Definition asInt16 (bits : Z) : Z :=
  if (32768 <=? bits)%Z then (bits - 65536)%Z else bits.

(** [ToInt16]: [NaN] and the infinities become 0, a finite number is
    truncated and wrapped modulo 2^16. *)
Definition toInt16 (value : float32) : Z :=
  match value with
  | Finite q => asInt16 (truncate q mod 65536)
  | _ => 0%Z
  end.

(** [new ArrayBuffer(byteLength)]: zero-filled bytes. *)
Definition ArrayBuffer (byteLength : nat) : list Z := repeat 0%Z byteLength.

(** [view.setInt16(byteOffset, value, true)]: the low byte first; [None]
    is the [RangeError] of a write past the end of the buffer. *)
Definition setInt16 (view : list Z) (byteOffset : nat) (value : float32)
  : option (list Z) :=
  if (byteOffset + 2 <=? List.length view)%nat
  then
    let bits := (toInt16 value mod 65536)%Z in
    Some (firstn byteOffset view
            ++ [bits mod 256; bits / 256] ++ skipn (byteOffset + 2) view)%list%Z
  else None.

(** The loop of [floatTo16BitPCM] from index [i] on. *)
Fixpoint pcmLoop (float32Array : list float32) (i : nat) (view : list Z)
  : option (list Z) :=
  match float32Array with
  | [] => Some view
  | x :: rest =>
      let s := Math_max (-1) (Math_min 1 x) in
      match setInt16 view (i * 2) (scale s) with
      | Some view' => pcmLoop rest (S i) view'
      | None => None
      end
  end.

Definition floatTo16BitPCM (float32Array : list float32) : option (list Z) :=
  pcmLoop float32Array 0 (ArrayBuffer (List.length float32Array * 2)).

(** [new Int16Array(arrayBuffer)]: pairs of bytes read in the byte order
    of the platform, taken to be little-endian (low byte first); [None] is
    the [RangeError] raised when the byte length is odd. *)
Fixpoint Int16Array (arrayBuffer : list Z) : option (list Z) :=
  match arrayBuffer with
  | [] => Some []
  | [_] => None
  | low :: high :: rest =>
      match Int16Array rest with
      | Some ints => Some (asInt16 (low + 256 * high) :: ints)
      | None => None
      end
  end.

Inductive Decoded : Type :=
| RangeError
| NotSupportedError
| AudioBuffer (sampleRate : Q) (channelData : list Q).

Section Decode.

(** The sample rates the audio context accepts for a buffer. *)
Variable supportedRate : Q -> bool.

(** [ctx.createBuffer(1, length, sampleRate)] followed by the copy of the
    samples: a buffer needs at least one frame and a supported rate. *)
Definition createBuffer (float32Data : list Q) (sampleRate : Q) : Decoded :=
  if (List.length float32Data =? 0)%nat || negb (supportedRate sampleRate)
  then NotSupportedError
  else AudioBuffer sampleRate float32Data.

Definition decodeAudioData (arrayBuffer : list Z) (sampleRate : Q)
  : Decoded :=
  match Int16Array arrayBuffer with
  | None => RangeError
  | Some dataInt16 =>
      let float32Data := map (fun v => inject_Z v / 32768) dataInt16 in
      createBuffer float32Data sampleRate
  end.

End Decode.

End VoiceAgent.

(** * Vocabulary of the properties *)

(** ** Sample data

    Three of the [MOCK_TRANSACTIONS] of [constants.ts]. *)

Definition TX001 : Transaction.t :=
  Transaction.mk "TX001" "2024-06-01" "Rental Income - Inv #1001" Revenue
    450000 "INV-1001" None.

Definition TX002 : Transaction.t :=
  Transaction.mk "TX002" "2024-06-02" "Purchase Parts (Tires) - Mitra Motor"
    Expense (-2500000) "PO-502" (Some "2000").

Definition TX004 : Transaction.t :=
  Transaction.mk "TX004" "2024-06-04" "Monthly Garage Rent" Expense
    (-5000000) "AP-201" None.

(** A revenue transaction of amount zero, as the entry form (amount
    [min="0"]) or a CSV row with a description and no amount produces. *)
Definition zeroRevenue : Transaction.t :=
  Transaction.mk "TX-0" "2024-06-06" "Deposit" Revenue 0 "REF-1" (Some "1002").

(** ** Predicates used in the statements *)

(** [k] occurs in [s]. *)
Definition contains (s k : string) : Prop :=
  exists pre post, s = pre ++ k ++ post.

Definition entryLines (tx : Transaction.t) : list JournalLine.t :=
  JournalEntry.lines (AccountingView.systemJournalEntry tx).

Definition mentionsMaintenance (tx : Transaction.t) : Prop :=
  contains (JS.toLowerCase (Transaction.description tx)) "maintenance"
  \/ contains (JS.toLowerCase (Transaction.description tx)) "parts".



Fixpoint total (f : JournalLine.t -> Q) (ls : list JournalLine.t) : Q :=
  match ls with
  | [] => 0
  | l :: r => f l + total f r
  end.

Definition allLines (es : list JournalEntry.t) : list JournalLine.t :=
  flat_map JournalEntry.lines es.

(** The journal file used in the examples: one balanced group, a sale
    credited to account 4000. *)
Definition journalCsv : string :=
  "Date,Ref,Description,Debit,Credit" ++ String "010"
  "2024-06-07,R1,Sales Revenue,0,100" ++ String "010"
  "2024-06-07,R1,Bank BCA,100,0".

(** No character of [s] is a decimal digit. *)
Fixpoint digitFree (s : string) : bool :=
  match s with
  | EmptyString => true
  | String c r => negb (JS.isDigit c) && digitFree r
  end.

Definition newline : ascii := "010".
Definition tab : ascii := "009".

(** The rule in the words of the specification: the delimiter whose count
    strictly exceeds both others, comma when there is none. *)
Definition strictlyDominant (tabs semicolons commas : nat) : ascii :=
  if (commas <? tabs)%nat && (semicolons <? tabs)%nat then tab
  else if (commas <? semicolons)%nat && (tabs <? semicolons)%nat then ";"%char
  else ","%char.

(** A header with one tab and one semicolon, followed by a data line. *)
Definition tiedHeaderText : string :=
  "date" ++ String tab "ref;amount" ++ String newline "2024-06-01"
  ++ String tab "R1;100".

(** The description a row resolves to, before the "Imported Transaction"
    default. *)
Definition rowDescription (roles : TransactionManager.ColumnRoles)
  (cols : list string) : string :=
  TransactionManager.valOrColumn cols (TransactionManager.idxDesc roles) 2.

Definition rowAmount (roles : TransactionManager.ColumnRoles)
  (cols : list string) : Q :=
  fst (TransactionManager.calculateAmount roles cols).

Definition rowDebit (roles : TransactionManager.ColumnRoles)
  (cols : list string) : Q :=
  TransactionManager.parseCurrency
    (TransactionManager.val cols (TransactionManager.idxDebit roles)).

Definition rowCredit (roles : TransactionManager.ColumnRoles)
  (cols : list string) : Q :=
  TransactionManager.parseCurrency
    (TransactionManager.val cols (TransactionManager.idxCredit roles)).

(** Both a debit and a credit column were inferred from the header. *)
Definition debitCreditLayout (roles : TransactionManager.ColumnRoles) : Prop :=
  (0 <= TransactionManager.idxDebit roles)%Z
  /\ (0 <= TransactionManager.idxCredit roles)%Z.

(** Neither that pair nor an amount column: the positional layouts. *)
Definition positionalLayout (roles : TransactionManager.ColumnRoles) : Prop :=
  ~ debitCreditLayout roles /\ (TransactionManager.idxAmount roles < 0)%Z.

Definition hasAssetKeyword (desc : string) : Prop :=
  contains (JS.toLowerCase desc) "asset" \/ contains (JS.toLowerCase desc) "aset"
  \/ contains (JS.toLowerCase desc) "motor" \/ contains (JS.toLowerCase desc) "unit".

(** The header [date,ref,description,debit,credit] and a purchase row
    with a debit of 100 and no credit. *)
Definition debitCreditRoles : TransactionManager.ColumnRoles :=
  TransactionManager.inferColumns
    ["date"; "ref"; "description"; "debit"; "credit"].

Definition motorPurchaseRow : list string :=
  ["2024-06-02"; "PO-1"; "Beli motor bekas"; "100"; ""].

(** A header none of whose cells carries a role keyword, and a data row
    of three cells under it. *)
Definition positionalRoles : TransactionManager.ColumnRoles :=
  TransactionManager.inferColumns ["day"; "voucher"; "memo"; "value"].

Definition shortRow : list string := ["2024-06-08"; "V-17"; "Garage rent"].

(** A row carrying a debit of 70 and a credit of 450000. *)
Definition bothSidesRow : list string :=
  ["2024-06-01"; "INV-1001"; "Rental Income"; "70"; "450.000"].

Definition viaBank (tx : Transaction.t) : Prop :=
  Transaction.contraAccount tx = Some "1002".

(** The transaction file used in the examples. *)
Definition transactionsCsv : string :=
  "date,ref,description,debit,credit" ++ String newline
  "2024-06-01,INV-1001,Rental Income,,450000" ++ String newline
  "2024-06-02,PO-502,Purchase Parts (Tires),2500000,".

(** ** Vocabulary of the further properties *)

(** The codes the journal derivation posts to. *)
Definition postingCodes : list string :=
  ["1002"; "4000"; "5001"; "5002"; "2000"; "1200"].

(** The (code, name) pairs of the chart of accounts. *)
Definition chartPairs : list (string * string) :=
  map (fun a => (Account.code a, Account.name a)) CHART_OF_ACCOUNTS.

Definition setAmount (tx : Transaction.t) (a : Q) : Transaction.t :=
  Transaction.mk (Transaction.id tx) (Transaction.date tx)
    (Transaction.description tx) (Transaction.category tx) a
    (Transaction.reference tx) (Transaction.contraAccount tx).

Definition setContra (form : TransactionManager.FormData) (c : option string)
  : TransactionManager.FormData :=
  TransactionManager.mkForm (TransactionManager.formDate form)
    (TransactionManager.formCategory form)
    (TransactionManager.formAmount form)
    (TransactionManager.formDescription form)
    (TransactionManager.formReference form) c.








(** The comparison behind [(a, b) => time(b) - time(a)] being positive,
    for a [key] giving the time of an element ([None]: invalid date). *)
Definition keyAfter {A : Type} (key : A -> option Z) (x y : A) : bool :=
  match key y, key x with
  | Some ty, Some tx => (0 <? ty - tx)%Z
  | _, _ => false
  end.

(** [x] may stand before [y] in a list ordered newest first. *)
Definition newestFirst {A : Type} (key : A -> option Z) (x y : A) : Prop :=
  exists tx ty, key x = Some tx /\ key y = Some ty /\ (ty <= tx)%Z.

Definition entryTime (getTime : string -> option Z) (e : JournalEntry.t)
  : option Z :=
  getTime (JournalEntry.date e).

Definition transactionTime (getTime : string -> option Z) (t : Transaction.t)
  : option Z :=
  getTime (Transaction.date t).

(** An opening entry between Owner Capital and the bank account. *)
Definition openingEntry : JournalEntry.t :=
  JournalEntry.mk "CSV-OPEN-k3x9a" "2024-01-01" "OPEN" "Imported Transaction"
    [ JournalLine.mk "1002" "Bank BCA" 900000000 0;
      JournalLine.mk "9999" "Owner Capital" 0 900000000 ].

(** [new Date(s).getTime()] on the dates of the examples (milliseconds
    since the epoch, UTC); any other string counts as an invalid date. *)
Definition sampleTime (s : string) : option Z :=
  if String.eqb s "2024-01-01" then Some 1704067200000%Z
  else if String.eqb s "2024-06-01" then Some 1717200000000%Z
  else if String.eqb s "2024-06-02" then Some 1717286400000%Z
  else if String.eqb s "2024-06-04" then Some 1717459200000%Z
  else None.

(** A filled-in entry form: a parts purchase paid from Cash on Hand. *)
Definition partsForm : TransactionManager.FormData :=
  TransactionManager.mkForm (Some "2024-06-09") Expense (Some 350000)
    (Some "Spare parts") (Some "") (Some "1001").

(** The id given to the transaction of line [i] of an import. *)
Definition csvId (dateNow : nat -> nat) (i : nat) : string :=
  "TX-CSV-" ++ JS.natToString (dateNow i) ++ "-" ++ JS.natToString i.

(** Every character of [s] is a decimal digit. *)
Fixpoint allDigits (s : string) : bool :=
  match s with
  | EmptyString => true
  | String c r => JS.isDigit c && allDigits r
  end.

Definition positiveAmount (t : Transaction.t) : bool :=
  JS.Qltb 0 (Transaction.amount t).


(** The category the materializer gives a transaction, read off its amount
    and description. *)
Definition categoryBySign (t : Transaction.t) : Prop :=
  (Transaction.amount t < 0 -> hasAssetKeyword (Transaction.description t) ->
   Transaction.category t = Asset)
  /\ (Transaction.amount t < 0 ->
      ~ hasAssetKeyword (Transaction.description t) ->
      Transaction.category t = Expense)
  /\ (0 <= Transaction.amount t -> Transaction.category t = Revenue).

Definition nonBlank (l : string) : bool :=
  (0 <? String.length (JS.trim l))%nat.

(** The counters of the row loop agree with the batch built so far. *)
Definition countersAgree (st : TransactionManager.ImportState) : Prop :=
  TransactionManager.parsedCount st
  = List.length (TransactionManager.newTransactions st)
  /\ TransactionManager.revCount st
     = List.length (filter positiveAmount (TransactionManager.newTransactions st))
  /\ TransactionManager.expCount st
     = List.length
         (filter (fun t => negb (positiveAmount t))
            (TransactionManager.newTransactions st)).






(** The cells of a line of the journal file. *)
Definition journalCells (line : string) : list string :=
  map JS.trim (JS.split "," (JS.trim line)).

(** A line of the journal file that contributes a journal line: not blank,
    at least five cells. *)
Definition acceptedRow (line : string) : bool :=
  negb (JS.isEmpty (JS.trim line)) && (5 <=? List.length (journalCells line))%nat.

(** The reference cell of a line. *)
Definition rowRef (line : string) : string := nth 1 (journalCells line) "".

Definition countAccepted (lines : list string) : nat :=
  List.length (filter acceptedRow lines).

(** What every imported journal line satisfies. *)
Definition importedLineOk (l : JournalLine.t) : Prop :=
  JournalLine.accountId l = AccountingView.mapAccount (JournalLine.accountName l)
  /\ JS.countChar JS.quoteChar (JournalLine.accountName l) = 0%nat.

(** What every group of the import satisfies, [k] being its key. *)
Definition groupOk (randomSuffix : nat -> string) (k : string)
  (e : JournalEntry.t) : Prop :=
  JournalEntry.reference e = k
  /\ JournalEntry.description e = "Imported Transaction"
  /\ (exists i, JournalEntry.id e = "CSV-" ++ k ++ "-" ++ randomSuffix i)
  /\ AccountingView.inherited k = false
  /\ Forall importedLineOk (JournalEntry.lines e).

Definition groupsOk (randomSuffix : nat -> string) (g : AccountingView.Groups)
  : Prop :=
  NoDup (map fst g)
  /\ Forall (fun p => groupOk randomSuffix (fst p) (snd p)) g.

Definition groupLines (g : AccountingView.Groups) : list JournalLine.t :=
  flat_map (fun p => JournalEntry.lines (snd p)) g.

Definition allHaveLines (g : AccountingView.Groups) : Prop :=
  Forall (fun p => JournalEntry.lines (snd p) <> []) g.


(** A byte of an [ArrayBuffer]. *)
Definition isByte (b : Z) : Prop := (0 <= b < 256)%Z.

(** The 16-bit sample a float is meant to become: silence for [NaN],
    full scale for anything at or beyond [-1] and [1], and in between the
    truncated product by 32768 (negative) or 32767 (positive). *)
Definition pcm16 (x : VoiceAgent.float32) : Z :=
  match x with
  | VoiceAgent.NaN => 0
  | VoiceAgent.PosInfinity => 32767
  | VoiceAgent.NegInfinity => -32768
  | VoiceAgent.Finite q =>
      if Qle_bool q (-1) then -32768
      else if JS.Qltb q 0 then VoiceAgent.truncate (q * 32768)
      else if JS.Qltb q 1 then VoiceAgent.truncate (q * 32767)
      else 32767
  end%Z.

Definition inInt16 (v : Z) : Prop := (-32768 <= v <= 32767)%Z.

(** A finite sample within the nominal range of Web Audio. *)
Definition nominal (x : VoiceAgent.float32) (q : Q) : Prop :=
  x = VoiceAgent.Finite q /\ (-1 <= q <= 1)%Q.

(** The two bytes of a 16-bit sample, low byte first. *)
Definition int16Bytes (v : Z) : list Z :=
  [((v mod 65536) mod 256)%Z; ((v mod 65536) / 256)%Z].

(** A decoded sample: at least [-1], below [1]. *)
Definition unitSample (y : Q) : Prop := (-1 <= y < 1)%Q.

Definition anyRate (sampleRate : Q) : bool := true.

Ltac in_list := cbn; repeat first [left; reflexivity | right].


(** Case analysis on a character known to be a decimal digit. *)
Ltac digit_cases c H :=
  destruct c as [[] [] [] [] [] [] [] []]; try discriminate H.

(** * Properties *)

(** ** The model on sample inputs *)

Example splitCSVLine_quoted_field :
  TransactionManager.splitCSVLine
    ("a," ++ String JS.quoteChar "b,c" ++ String JS.quoteChar ",d") ","
  = ["a"; "b,c"; "d"].
Proof. vm_compute. reflexivity. Qed.

Example splitCSVLine_escaped_quote :
  TransactionManager.splitCSVLine
    ("a," ++ String JS.quoteChar "b" ++ String JS.quoteChar
       (String JS.quoteChar "c") ++ String JS.quoteChar ",d") ","
  = ["a"; "b" ++ String JS.quoteChar "c"; "d"].
Proof. vm_compute. reflexivity. Qed.

Example parseCurrency_decimal_comma :
  TransactionManager.parseCurrency "50,5" == 50.5
  /\ TransactionManager.parseCurrency "10,000" == 10000
  /\ TransactionManager.parseCurrency "-Rp 12" == -12.
Proof. repeat split; vm_compute; reflexivity. Qed.

Example parseCSV_transactionsCsv :
  TransactionManager.parseCSV (fun _ => 17%nat) (fun _ => "2024-06-30")
    transactionsCsv
  = TransactionManager.ImportSuccessful
      [ Transaction.mk "TX-CSV-17-1" "2024-06-01" "Rental Income" Revenue
          450000 "INV-1001" (Some "1002");
        Transaction.mk "TX-CSV-17-2" "2024-06-02" "Purchase Parts (Tires)"
          Expense (- (2500000)) "PO-502" (Some "1002") ]
      "," 2 1 1.
Proof. vm_compute. reflexivity. Qed.

Example systemJournalEntry_TX001 :
  AccountingView.systemJournalEntry TX001
  = JournalEntry.mk "TX001" "2024-06-01" "INV-1001" "Rental Income - Inv #1001"
      [ JournalLine.mk "1002" "Bank BCA" 450000 0;
        JournalLine.mk "4000" "Rental Revenue" 0 450000 ].
Proof. reflexivity. Qed.

Example journal_import_groups_by_reference :
  AccountingView.parseCSV (fun _ => "k3x9a") journalCsv
  = Some [ JournalEntry.mk "CSV-R1-k3x9a" "2024-06-07" "R1"
             "Imported Transaction"
             [ JournalLine.mk "4000" "Sales Revenue" 0 100;
               JournalLine.mk "1002" "Bank BCA" 100 0 ] ].
Proof. vm_compute. reflexivity. Qed.

Example journal_import_fails_on_inherited_key :
  AccountingView.parseCSV (fun _ => "k3x9a")
    ("Date,Ref,Description,Debit,Credit" ++ String newline
     "2024-06-07,constructor,Sales Revenue,0,100")
  = None.
Proof. vm_compute. reflexivity. Qed.

(** ** Substrings *)

Lemma prefix_spec (k s : string) :
  prefix k s = true <-> exists post, s = k ++ post.
Proof.
  revert s; induction k as [|c k IH]; intros s; simpl.
  - split; [intros _; now exists s | intros _; now destruct s].
  - destruct s as [|d s].
    + split; [discriminate | intros [post H]; discriminate].
    + simpl. destruct (ascii_dec c d) as [->|Hne].
      * rewrite IH. split; intros [post H]; exists post.
        -- now rewrite H.
        -- now inversion H.
      * split; [discriminate | intros [post H]; simpl in H; congruence].
Qed.

Lemma includes_spec (s k : string) :
  JS.includes s k = true <-> contains s k.
Proof.
  unfold contains. induction s as [|c s IH].
  - cbn [JS.includes]. rewrite orb_false_r, prefix_spec. split.
    + intros [post H]. now exists EmptyString, post.
    + intros [pre [post H]]. destruct pre; [now exists post | discriminate].
  - cbn [JS.includes]. rewrite orb_true_iff, prefix_spec, IH. split.
    + intros [[post H] | [pre [post H]]].
      * now exists EmptyString, post.
      * exists (String c pre), post. simpl. now rewrite H.
    + intros [[|d pre] [post H]].
      * left. now exists post.
      * right. simpl in H. inversion H. now exists pre, post.
Qed.

(** ** Numbers *)

Lemma Qltb_lt (x y : Q) : JS.Qltb x y = true <-> x < y.
Proof.
  unfold JS.Qltb. rewrite negb_true_iff. split.
  - intros H. apply Qnot_le_lt. intros Hle.
    apply Qle_bool_iff in Hle. congruence.
  - intros H. destruct (Qle_bool y x) eqn:E; [|reflexivity].
    apply Qle_bool_iff in E. exfalso. exact (Qlt_not_le _ _ H E).
Qed.

Lemma Qltb_not_lt (x y : Q) : ~ x < y -> JS.Qltb x y = false.
Proof.
  intros H. destruct (JS.Qltb x y) eqn:E; [|reflexivity].
  apply Qltb_lt in E. contradiction.
Qed.

Lemma Qabs_zero_iff (x : Q) : Qabs x == 0 <-> x == 0.
Proof.
  split; intros H.
  - revert H. pattern (Qabs x). apply Qabs_case; intros _ E; [exact E|].
    rewrite <- (Qopp_involutive x), E. reflexivity.
  - rewrite H. reflexivity.
Qed.

(** ** Journal derivation *)

Lemma expense_account_test (tx : Transaction.t) :
  JS.includes (JS.toLowerCase (Transaction.description tx)) "maintenance"
  || JS.includes (JS.toLowerCase (Transaction.description tx)) "parts" = true
  <-> mentionsMaintenance tx.
Proof.
  unfold mentionsMaintenance.
  now rewrite orb_true_iff, !includes_spec.
Qed.

Lemma contraIs2000_spec (c : option string) :
  AccountingView.contraIs2000 c = true <-> c = Some "2000".
Proof.
  destruct c as [c|]; simpl.
  - rewrite String.eqb_eq. split; [now intros -> | now intros [= ->]].
  - split; discriminate.
Qed.

Lemma balanced_lines (tx : Transaction.t) :
  sumDebit (entryLines tx) == sumCredit (entryLines tx).
Proof.
  unfold entryLines, AccountingView.systemJournalEntry, sumDebit, sumCredit.
  destruct (Transaction.category tx); cbn [JournalEntry.lines];
    try (destruct (AccountingView.contraIs2000 _));
    cbn [fold_left JournalLine.debit JournalLine.credit]; ring.
Qed.

(** C1. Every transaction of category Revenue, Expense or Asset is mapped by
    the system journal derivation to an entry whose debits and credits have
    the same sum. *)
Theorem system_entries_balanced :
  forall (transactions : list Transaction.t) (n : nat) (tx : Transaction.t),
    nth_error transactions n = Some tx ->
    Transaction.category tx = Revenue \/ Transaction.category tx = Expense
      \/ Transaction.category tx = Asset ->
    exists e,
      nth_error (AccountingView.systemJournalEntries transactions) n = Some e
      /\ e = AccountingView.systemJournalEntry tx
      /\ sumDebit (JournalEntry.lines e) == sumCredit (JournalEntry.lines e).
Proof.
  intros transactions n tx Hn _.
  exists (AccountingView.systemJournalEntry tx). split; [|split].
  - unfold AccountingView.systemJournalEntries. now apply map_nth_error.
  - reflexivity.
  - apply balanced_lines.
Qed.

Lemma system_entries_balanced_witness :
  exists e,
    nth_error (AccountingView.systemJournalEntries [TX001; TX002; TX004]) 1
      = Some e
    /\ e = AccountingView.systemJournalEntry TX002
    /\ sumDebit (JournalEntry.lines e) == sumCredit (JournalEntry.lines e).
Proof.
  apply (system_entries_balanced [TX001; TX002; TX004] 1 TX002).
  - reflexivity.
  - right; left; reflexivity.
Defined.

(** C2, as stated, fails: the entry derived from a transaction of amount
    zero has lines whose debit and credit are both zero. *)
Lemma debit_xor_credit_fails_at_zero :
  ~ (forall (tx : Transaction.t) (l : JournalLine.t),
       In l (entryLines tx) -> debitXorCredit l = true).
Proof.
  intros H.
  specialize (H zeroRevenue (JournalLine.mk "1002" "Bank BCA" (Qabs 0) 0)).
  assert (Hin : In (JournalLine.mk "1002" "Bank BCA" (Qabs 0) 0)
                   (entryLines zeroRevenue)) by (left; reflexivity).
  specialize (H Hin). discriminate H.
Qed.

(** C2, amended. Every line of a system-derived entry has a zero debit or a
    zero credit; exactly one of the two is zero when the transaction's
    amount is not zero, and both are zero when the amount is zero. *)
Theorem debit_xor_credit_nonzero :
  forall (tx : Transaction.t) (l : JournalLine.t),
    In l (entryLines tx) ->
    (JournalLine.debit l == 0 \/ JournalLine.credit l == 0)
    /\ (~ Transaction.amount tx == 0 -> debitXorCredit l = true)
    /\ (Transaction.amount tx == 0 ->
        JournalLine.debit l == 0 /\ JournalLine.credit l == 0).
Proof.
  intros tx l Hin.
  assert (Hshape :
    (JournalLine.debit l = Qabs (Transaction.amount tx)
     /\ JournalLine.credit l = 0)
    \/ (JournalLine.debit l = 0
        /\ JournalLine.credit l = Qabs (Transaction.amount tx))).
  { unfold entryLines, AccountingView.systemJournalEntry in Hin.
    destruct (Transaction.category tx); cbn [JournalEntry.lines] in Hin;
      try (destruct (AccountingView.contraIs2000 _));
      simpl in Hin;
      repeat (destruct Hin as [<- | Hin]; [simpl; tauto|]);
      contradiction. }
  unfold debitXorCredit.
  destruct Hshape as [[Hd Hc] | [Hd Hc]]; rewrite Hd, Hc;
    (split; [|split]).
  - right; reflexivity.
  - intros Hnz. destruct (Qeq_bool (Qabs _) 0) eqn:E; [|reflexivity].
    apply Qeq_bool_iff in E. apply (proj1 (Qabs_zero_iff _)) in E.
    contradiction.
  - intros Hz. split; [now apply Qabs_zero_iff | reflexivity].
  - left; reflexivity.
  - intros Hnz. destruct (Qeq_bool (Qabs _) 0) eqn:E; [|reflexivity].
    apply Qeq_bool_iff in E. apply (proj1 (Qabs_zero_iff _)) in E.
    contradiction.
  - intros Hz. split; [reflexivity | now apply Qabs_zero_iff].
Qed.

Lemma debit_xor_credit_nonzero_witness :
  debitXorCredit (JournalLine.mk "5001" "Maintenance Expense" (Qabs (-2500000)) 0)
  = true.
Proof.
  apply (debit_xor_credit_nonzero TX002
           (JournalLine.mk "5001" "Maintenance Expense" (Qabs (-2500000)) 0)).
  - left; reflexivity.
  - intros H; discriminate H.
Defined.

(** C8. An Expense transaction yields exactly two lines: first a debit of
    [abs(amount)] to 5001 when the lower-cased description contains
    "maintenance" or "parts" and to 5002 otherwise, then a credit of
    [abs(amount)] to 2000 when [contraAccount] is "2000" and to 1002
    otherwise. *)
Theorem expense_posting_rule :
  forall tx : Transaction.t,
    Transaction.category tx = Expense ->
    exists d c : JournalLine.t,
      entryLines tx = [d; c]
      /\ JournalLine.debit d = Qabs (Transaction.amount tx)
      /\ JournalLine.credit d = 0
      /\ (mentionsMaintenance tx -> JournalLine.accountId d = "5001")
      /\ (~ mentionsMaintenance tx -> JournalLine.accountId d = "5002")
      /\ JournalLine.debit c = 0
      /\ JournalLine.credit c = Qabs (Transaction.amount tx)
      /\ (Transaction.contraAccount tx = Some "2000" ->
          JournalLine.accountId c = "2000")
      /\ (Transaction.contraAccount tx <> Some "2000" ->
          JournalLine.accountId c = "1002").
Proof.
  intros tx Hcat.
  unfold entryLines, AccountingView.systemJournalEntry. rewrite Hcat.
  cbn [JournalEntry.lines].
  pose proof (expense_account_test tx) as Hm.
  pose proof (contraIs2000_spec (Transaction.contraAccount tx)) as Hc.
  destruct (JS.includes _ "maintenance" || JS.includes _ "parts");
    destruct (AccountingView.contraIs2000 _);
    eexists; eexists; (split; [reflexivity|]); cbn;
    repeat split; try reflexivity; intros H;
    solve [ reflexivity
          | apply Hm in H; discriminate H
          | exfalso; apply H; apply Hm; reflexivity
          | apply Hc in H; discriminate H
          | exfalso; apply H; apply Hc; reflexivity ].
Qed.

Lemma expense_posting_rule_witness :
  exists d c : JournalLine.t,
    entryLines TX002 = [d; c]
    /\ JournalLine.debit d = Qabs (Transaction.amount TX002)
    /\ JournalLine.credit d = 0
    /\ (mentionsMaintenance TX002 -> JournalLine.accountId d = "5001")
    /\ (~ mentionsMaintenance TX002 -> JournalLine.accountId d = "5002")
    /\ JournalLine.debit c = 0
    /\ JournalLine.credit c = Qabs (Transaction.amount TX002)
    /\ (Transaction.contraAccount TX002 = Some "2000" ->
        JournalLine.accountId c = "2000")
    /\ (Transaction.contraAccount TX002 <> Some "2000" ->
        JournalLine.accountId c = "1002").
Proof.
  apply (expense_posting_rule TX002). reflexivity.
Defined.

(** ** Report aggregation over the combined journal *)







Lemma insertEntry_perm (getTime : string -> option Z) (x : JournalEntry.t)
  (l : list JournalEntry.t) :
  Permutation (x :: l) (AccountingView.insertEntry getTime x l).
Proof.
  induction l as [|y l IH]; simpl.
  - apply Permutation_refl.
  - destruct (AccountingView.comesAfter getTime x y).
    + eapply perm_trans; [apply perm_swap|]. now apply perm_skip.
    + apply Permutation_refl.
Qed.

Lemma allJournalEntries_perm (getTime : string -> option Z)
  (uploaded system : list JournalEntry.t) :
  Permutation (uploaded ++ system)
    (AccountingView.allJournalEntries getTime uploaded system).
Proof.
  unfold AccountingView.allJournalEntries.
  induction (uploaded ++ system)%list as [|x l IH]; simpl.
  - apply perm_nil.
  - eapply perm_trans; [apply perm_skip, IH | apply insertEntry_perm].
Qed.



(** ** Currency parser *)

Lemma digitFree_tail (c : ascii) (s : string) :
  digitFree (String c s) = true -> digitFree s = true.
Proof. simpl. now intros [_ H]%andb_true_iff. Qed.

Lemma digitFree_trimStart (s : string) :
  digitFree s = true -> digitFree (JS.trimStart s) = true.
Proof.
  induction s as [|c s IH]; intros H; [assumption|].
  cbn [JS.trimStart]. destruct (JS.isWhitespace c); [|assumption].
  apply IH. exact (digitFree_tail _ _ H).
Qed.

Lemma digitFree_trimEnd (s : string) :
  digitFree s = true -> digitFree (JS.trimEnd s) = true.
Proof.
  induction s as [|c s IH]; intros H; [assumption|].
  cbn [JS.trimEnd]. simpl in H. apply andb_true_iff in H as [Hc Hs].
  destruct (JS.isWhitespace c && JS.isEmpty (JS.trimEnd s)); [reflexivity|].
  simpl. now rewrite Hc, IH.
Qed.

Lemma digitFree_keepChars (keep : ascii -> bool) (s : string) :
  digitFree s = true -> digitFree (JS.keepChars keep s) = true.
Proof.
  induction s as [|c s IH]; intros H; [assumption|].
  simpl in H. apply andb_true_iff in H as [Hc Hs].
  cbn [JS.keepChars]. destruct (keep c); [|now apply IH].
  simpl. now rewrite Hc, IH.
Qed.

Lemma digitFree_dropFirst (s : string) :
  digitFree s = true -> digitFree (JS.dropFirst s) = true.
Proof. destruct s; [trivial | apply digitFree_tail]. Qed.

Lemma digitFree_dropLast (s : string) :
  digitFree s = true -> digitFree (JS.dropLast s) = true.
Proof.
  induction s as [|c s IH]; intros H; [assumption|].
  simpl in H. apply andb_true_iff in H as [Hc Hs].
  destruct s as [|d s]; [reflexivity|].
  change (JS.dropLast (String c (String d s)))
    with (String c (JS.dropLast (String d s))).
  change (negb (JS.isDigit c) && digitFree (JS.dropLast (String d s)) = true).
  now rewrite Hc, IH.
Qed.

Lemma digitFree_dropChars (n : nat) (s : string) :
  digitFree s = true -> digitFree (JS.dropChars n s) = true.
Proof.
  revert s; induction n as [|n IH]; intros s H; [assumption|].
  destruct s as [|c s]; [assumption|].
  cbn [JS.dropChars]. apply IH. exact (digitFree_tail _ _ H).
Qed.

Lemma digitFree_replaceFirst (s : string) :
  digitFree s = true -> digitFree (JS.replaceFirst "," "." s) = true.
Proof.
  induction s as [|c s IH]; intros H; [assumption|].
  simpl in H. apply andb_true_iff in H as [Hc Hs].
  cbn [JS.replaceFirst]. destruct (Ascii.eqb c ","); simpl.
  - exact Hs.
  - now rewrite Hc, IH.
Qed.

Lemma digitFree_stripCurrencyMarker (s : string) :
  digitFree s = true ->
  digitFree (TransactionManager.stripCurrencyMarker s) = true.
Proof.
  intros H. unfold TransactionManager.stripCurrencyMarker.
  assert (Hstep : forall r, digitFree r = true ->
            digitFree match r with
                      | EmptyString => EmptyString
                      | String c r' =>
                          if JS.isWhitespace c then r' else String c r'
                      end = true).
  { intros [|c r] Hr; [reflexivity|].
    destruct (JS.isWhitespace c); [exact (digitFree_tail _ _ Hr) | exact Hr]. }
  destruct (prefix "rp" (JS.toLowerCase s)).
  - destruct (JS.startsWithChar "." (JS.dropChars 2 s)).
    + specialize (Hstep (JS.dropFirst (JS.dropChars 2 s))
                    (digitFree_dropFirst _ (digitFree_dropChars 2 _ H))).
      destruct (JS.dropFirst (JS.dropChars 2 s)); exact Hstep.
    + specialize (Hstep (JS.dropChars 2 s) (digitFree_dropChars 2 _ H)).
      destruct (JS.dropChars 2 s); exact Hstep.
  - destruct (prefix "idr" (JS.toLowerCase s) || prefix "usd" (JS.toLowerCase s)).
    + specialize (Hstep (JS.dropChars 3 s) (digitFree_dropChars 3 _ H)).
      destruct (JS.dropChars 3 s); exact Hstep.
    + exact H.
Qed.

Lemma digitFree_resolveSeparators (s : string) :
  digitFree s = true ->
  digitFree (TransactionManager.resolveSeparators s) = true.
Proof.
  intros H. unfold TransactionManager.resolveSeparators, JS.removeAll.
  repeat match goal with
         | |- context [if ?b then _ else _] => destruct b
         end;
    auto using digitFree_keepChars, digitFree_replaceFirst.
Qed.

Lemma spanDigits_digitFree (s : string) :
  digitFree s = true -> JS.spanDigits s = (EmptyString, s).
Proof.
  destruct s as [|c s]; [reflexivity|].
  simpl. intros [Hc _]%andb_true_iff.
  apply negb_true_iff in Hc. now rewrite Hc.
Qed.

Lemma parseUnsigned_digitFree (s : string) :
  digitFree s = true -> JS.parseUnsigned s = None.
Proof.
  intros H. unfold JS.parseUnsigned. rewrite (spanDigits_digitFree _ H).
  destruct s as [|c s]; [reflexivity|].
  destruct (ascii_dec c ".") as [->|Hne].
  - rewrite (spanDigits_digitFree _ (digitFree_tail _ _ H)). reflexivity.
  - destruct c as [[] [] [] [] [] [] [] []]; try reflexivity.
    now contradiction Hne.
Qed.

Lemma parseFloat_digitFree (s : string) :
  digitFree s = true -> JS.parseFloat s = None.
Proof.
  intros H%digitFree_trimStart. unfold JS.parseFloat.
  destruct (JS.trimStart s) as [|c r]; [reflexivity|].
  pose proof (parseUnsigned_digitFree _ H) as Hu.
  pose proof (parseUnsigned_digitFree _ (digitFree_tail _ _ H)) as Hr.
  destruct c as [[] [] [] [] [] [] [] []]; try exact Hu; now rewrite Hr.
Qed.

Lemma currencyDigits_digitFree (s : string) :
  digitFree s = true ->
  digitFree (snd (TransactionManager.currencyDigits s)) = true.
Proof.
  intros H. unfold TransactionManager.currencyDigits. cbn [snd].
  apply digitFree_keepChars, digitFree_resolveSeparators.
  assert (H1 : digitFree (JS.trim s) = true)
    by (apply digitFree_trimEnd, digitFree_trimStart, H).
  assert (H2 : digitFree
                 (if JS.startsWithChar "(" (JS.trim s)
                     && JS.endsWithChar ")" (JS.trim s)
                  then JS.slice_1_m1 (JS.trim s) else JS.trim s) = true).
  { destruct (_ && _); [|exact H1].
    apply digitFree_dropLast, digitFree_dropFirst, H1. }
  apply digitFree_stripCurrencyMarker in H2.
  apply (digitFree_keepChars (fun c => negb (JS.isWhitespace c))) in H2.
  destruct (JS.startsWithChar "-" _); [apply digitFree_dropFirst|]; exact H2.
Qed.

(** C5. The five canonical forms normalize to the stated values, and the
    parser, a total function, returns 0 whenever [parseFloat] finds no number
    in the cleaned text, in particular for every input without a digit. *)
Theorem parseCurrency_canonical_forms :
  TransactionManager.parseCurrency "1.500.000,00" == 1500000.00
  /\ TransactionManager.parseCurrency "1,500,000.00" == 1500000.00
  /\ TransactionManager.parseCurrency "Rp 50.000" == 50000
  /\ TransactionManager.parseCurrency "(50.000)" == -50000
  /\ TransactionManager.parseCurrency "abc" == 0
  /\ (forall raw : string,
        JS.parseFloat (snd (TransactionManager.currencyDigits raw)) = None ->
        TransactionManager.parseCurrency raw = 0)
  /\ (forall raw : string,
        digitFree raw = true -> TransactionManager.parseCurrency raw = 0).
Proof.
  assert (Hnan : forall raw : string,
            JS.parseFloat (snd (TransactionManager.currencyDigits raw)) = None ->
            TransactionManager.parseCurrency raw = 0).
  { intros raw H. unfold TransactionManager.parseCurrency.
    destruct (JS.isEmpty raw); [reflexivity|].
    destruct (TransactionManager.currencyDigits raw) as [neg clean].
    cbn [snd] in H. now rewrite H. }
  split; [vm_compute; reflexivity|].
  split; [vm_compute; reflexivity|].
  split; [vm_compute; reflexivity|].
  split; [vm_compute; reflexivity|].
  split; [vm_compute; reflexivity|].
  split; [exact Hnan|].
  intros raw H. apply Hnan, parseFloat_digitFree, currencyDigits_digitFree, H.
Qed.

Lemma parseCurrency_canonical_forms_witness :
  TransactionManager.parseCurrency "Rp. -,-" = 0.
Proof.
  apply (proj2 (proj2 (proj2 (proj2 (proj2 (proj2
           parseCurrency_canonical_forms)))))).
  vm_compute. reflexivity.
Defined.

(** ** Delimiter detection *)

Lemma split_not_nil (sep : ascii) (s : string) : JS.split sep s <> [].
Proof.
  destruct s as [|c s]; simpl; [discriminate|].
  destruct (Ascii.eqb c sep); [discriminate|].
  destruct (JS.split sep s); discriminate.
Qed.

Lemma split_single (sep : ascii) (s : string) :
  JS.countChar sep s = 0%nat -> JS.split sep s = [s].
Proof.
  induction s as [|c s IH]; simpl; [reflexivity|].
  destruct (Ascii.eqb c sep); [discriminate|].
  intros H. now rewrite (IH H).
Qed.

Lemma split_first_line (sep : ascii) (header rest : string) :
  JS.countChar sep header = 0%nat ->
  JS.split sep (header ++ String sep rest) = header :: JS.split sep rest.
Proof.
  induction header as [|c h IH]; simpl.
  - intros _. now rewrite Ascii.eqb_refl.
  - destruct (Ascii.eqb c sep); [discriminate|].
    intros H. now rewrite (IH H).
Qed.

(** C6, as stated, fails: with as many tabs as semicolons and fewer commas
    no delimiter is strictly dominant, yet the semicolon is returned. *)
Lemma detectDelimiter_tie_not_comma :
  ~ (forall header rest : string,
       JS.countChar newline header = 0%nat ->
       TransactionManager.detectDelimiter (header ++ String newline rest)
       = strictlyDominant (JS.countChar tab header)
           (JS.countChar ";" header) (JS.countChar "," header)).
Proof.
  intros H.
  specialize (H ("date" ++ String tab "ref;amount")
                ("2024-06-01" ++ String tab "R1;100") eq_refl).
  vm_compute in H. discriminate H.
Qed.

(** C6, amended. On a text of at least two lines the counts of the first
    line decide: tab when tabs strictly exceed both commas and semicolons;
    otherwise semicolon when semicolons strictly exceed commas (whatever
    the number of tabs); otherwise comma.  The three sample headers detect
    their delimiter, and a text without a line break, the empty one
    included, gives comma. *)
Theorem detectDelimiter_rule :
  (forall header rest : string,
     JS.countChar newline header = 0%nat ->
     let tabs := JS.countChar tab header in
     let semicolons := JS.countChar ";" header in
     let commas := JS.countChar "," header in
     let d := TransactionManager.detectDelimiter
                (header ++ String newline rest) in
     ((commas < tabs)%nat /\ (semicolons < tabs)%nat -> d = tab)
     /\ (~ ((commas < tabs)%nat /\ (semicolons < tabs)%nat) ->
         (commas < semicolons)%nat -> d = ";"%char)
     /\ (~ ((commas < tabs)%nat /\ (semicolons < tabs)%nat) ->
         (semicolons <= commas)%nat -> d = ","%char))
  /\ (forall rest : string,
        TransactionManager.detectDelimiter ("a;b;c" ++ String newline rest)
        = ";"%char
        /\ TransactionManager.detectDelimiter
             ("a" ++ String tab "b" ++ String tab "c" ++ String newline rest)
           = tab
        /\ TransactionManager.detectDelimiter ("a,b,c" ++ String newline rest)
           = ","%char)
  /\ (forall text : string,
        JS.countChar newline text = 0%nat ->
        TransactionManager.detectDelimiter text = ","%char)
  /\ TransactionManager.detectDelimiter "" = ","%char.
Proof.
  assert (Hgen : forall header rest : string,
            JS.countChar newline header = 0%nat ->
            TransactionManager.detectDelimiter (header ++ String newline rest)
            = if (JS.countChar "," header <? JS.countChar tab header)%nat
                 && (JS.countChar ";" header <? JS.countChar tab header)%nat
              then tab
              else if (JS.countChar "," header <? JS.countChar ";" header)%nat
                   then ";"%char else ","%char).
  { intros header rest Hh. unfold TransactionManager.detectDelimiter.
    fold newline. rewrite (split_first_line newline header rest Hh).
    pose proof (split_not_nil newline rest) as Hne.
    destruct (JS.split newline rest) as [|l ls]; [contradiction|].
    reflexivity. }
  split; [|split; [|split]].
  - intros header rest Hh tabs semicolons commas d. subst d.
    rewrite (Hgen header rest Hh). fold tabs semicolons commas.
    destruct (Nat.ltb_spec commas tabs), (Nat.ltb_spec semicolons tabs),
      (Nat.ltb_spec commas semicolons); cbn [andb];
      repeat split; intros; try reflexivity; lia.
  - intros rest. repeat split.
    + apply (Hgen "a;b;c" rest eq_refl).
    + apply (Hgen ("a" ++ String tab "b" ++ String tab "c") rest eq_refl).
    + apply (Hgen "a,b,c" rest eq_refl).
  - intros text Ht. unfold TransactionManager.detectDelimiter. fold newline.
    now rewrite (split_single newline text Ht).
  - reflexivity.
Qed.

Lemma detectDelimiter_rule_witness :
  TransactionManager.detectDelimiter tiedHeaderText = ";"%char
  /\ TransactionManager.detectDelimiter "date;ref;amount" = ","%char.
Proof.
  split.
  - apply (proj1 (proj2 (proj1 detectDelimiter_rule
                           ("date" ++ String tab "ref;amount")
                           ("2024-06-01" ++ String tab "R1;100") eq_refl))).
    + vm_compute. lia.
    + vm_compute. lia.
  - apply (proj1 (proj2 (proj2 detectDelimiter_rule)) "date;ref;amount").
    reflexivity.
Defined.

(** ** Transaction materializer *)

Section MaterializerFacts.

Variable dateNow : nat -> nat.
Variable today : nat -> string.

Lemma assetKeyword_spec (desc : string) :
  TransactionManager.assetKeyword desc = true <-> hasAssetKeyword desc.
Proof.
  unfold TransactionManager.assetKeyword, hasAssetKeyword.
  rewrite !orb_true_iff, !includes_spec. tauto.
Qed.

Lemma debitCreditLayout_test (roles : TransactionManager.ColumnRoles) :
  (0 <=? TransactionManager.idxDebit roles)%Z
  && (0 <=? TransactionManager.idxCredit roles)%Z = true
  <-> debitCreditLayout roles.
Proof.
  unfold debitCreditLayout. now rewrite andb_true_iff, !Z.leb_le.
Qed.

Lemma calculateAmount_debitCredit (roles : TransactionManager.ColumnRoles)
  (cols : list string) :
  debitCreditLayout roles ->
  TransactionManager.calculateAmount roles cols
  = TransactionManager.fromDebitCredit (rowDebit roles cols) (rowCredit roles cols).
Proof.
  intros H%debitCreditLayout_test.
  unfold TransactionManager.calculateAmount. now rewrite H.
Qed.

(** What [materializeRow] returns, with its pieces named. *)
Lemma materializeRow_eq (roles : TransactionManager.ColumnRoles) (i : nat)
  (cols : list string) :
  TransactionManager.materializeRow dateNow today roles i cols
  = if negb (Qeq_bool (rowAmount roles cols) 0)
       || negb (JS.isEmpty (rowDescription roles cols))
    then
      Some (Transaction.mk
              ("TX-CSV-" ++ JS.natToString (dateNow i) ++ "-" ++ JS.natToString i)
              (TransactionManager.orElse
                 (TransactionManager.valOrColumn cols
                    (TransactionManager.idxDate roles) 0) (today i))
              (TransactionManager.orElse (rowDescription roles cols)
                 "Imported Transaction")
              (TransactionManager.refineCategory (rowAmount roles cols)
                 (rowDescription roles cols)
                 (snd (TransactionManager.calculateAmount roles cols)))
              (rowAmount roles cols)
              (TransactionManager.orElse
                 (TransactionManager.valOrColumn cols
                    (TransactionManager.idxRef roles) 1)
                 ("CSV-" ++ JS.natToString i))
              (Some "1002"))
    else None.
Proof.
  unfold TransactionManager.materializeRow, rowAmount, rowDescription.
  now destruct (TransactionManager.calculateAmount roles cols).
Qed.

Lemma materializeRow_fields (roles : TransactionManager.ColumnRoles) (i : nat)
  (cols : list string) (tx : Transaction.t) :
  TransactionManager.materializeRow dateNow today roles i cols = Some tx ->
  Transaction.amount tx = rowAmount roles cols
  /\ Transaction.category tx
     = TransactionManager.refineCategory (rowAmount roles cols)
         (rowDescription roles cols)
         (snd (TransactionManager.calculateAmount roles cols))
  /\ Transaction.contraAccount tx = Some "1002".
Proof.
  rewrite materializeRow_eq.
  destruct (_ || _); [|discriminate].
  intros [= <-]. repeat split.
Qed.

End MaterializerFacts.

(** C4, as stated, fails: a row resolved through the debit and credit
    columns whose debit is positive is classified [Asset] when its
    description contains "motor", not [Expense] as the debit alone says. *)
Lemma keyword_override_reaches_debit_rows :
  ~ (forall (dateNow : nat -> nat) (today : nat -> string)
       (roles : TransactionManager.ColumnRoles) (i : nat)
       (cols : list string) (tx : Transaction.t),
       debitCreditLayout roles ->
       TransactionManager.materializeRow dateNow today roles i cols = Some tx ->
       Transaction.category tx
       = snd (TransactionManager.fromDebitCredit
                (rowDebit roles cols) (rowCredit roles cols))).
Proof.
  intros H.
  pose (tx := Transaction.mk "TX-CSV-0-1" "2024-06-02" "Beli motor bekas"
                Asset (- (100)) "PO-1" (Some "1002")).
  specialize (H (fun _ => 0%nat) (fun _ => "2024-06-30") debitCreditRoles
                1%nat motorPurchaseRow tx).
  assert (Hlay : debitCreditLayout debitCreditRoles)
    by (split; vm_compute; discriminate).
  specialize (H Hlay eq_refl). vm_compute in H. discriminate H.
Qed.

(** C4, amended. The keyword override is applied to every row, whichever
    layout resolved its amount.  For a row resolved through present debit
    and credit columns: a positive credit gives Revenue; otherwise a
    positive debit gives Asset when the description contains "asset",
    "aset", "motor" or "unit" and Expense when it does not; with neither
    positive the category stays Revenue. *)
Theorem debit_credit_row_category :
  forall (dateNow : nat -> nat) (today : nat -> string)
    (roles : TransactionManager.ColumnRoles) (i : nat)
    (cols : list string) (tx : Transaction.t),
    debitCreditLayout roles ->
    TransactionManager.materializeRow dateNow today roles i cols = Some tx ->
    let debit := rowDebit roles cols in
    let credit := rowCredit roles cols in
    let desc := rowDescription roles cols in
    (0 < credit -> Transaction.category tx = Revenue)
    /\ (~ 0 < credit -> 0 < debit -> hasAssetKeyword desc ->
        Transaction.category tx = Asset)
    /\ (~ 0 < credit -> 0 < debit -> ~ hasAssetKeyword desc ->
        Transaction.category tx = Expense)
    /\ (~ 0 < credit -> ~ 0 < debit -> Transaction.category tx = Revenue).
Proof.
  intros dateNow today roles i cols tx Hlay Hrow debit credit desc.
  destruct (materializeRow_fields _ _ _ _ _ _ Hrow) as (_ & Hcat & _).
  rewrite Hcat. unfold rowAmount.
  rewrite (calculateAmount_debitCredit roles cols Hlay).
  fold debit credit desc.
  unfold TransactionManager.fromDebitCredit, TransactionManager.refineCategory.
  destruct (JS.Qltb 0 credit) eqn:Ec.
  - apply Qltb_lt in Ec. cbn [fst snd].
    rewrite (Qltb_not_lt credit 0), (proj2 (Qltb_lt 0 credit) Ec)
      by (intros E; exact (Qlt_irrefl _ (Qlt_trans _ _ _ Ec E))).
    repeat split; intros; solve [reflexivity | contradiction].
  - assert (Hnc : ~ 0 < credit)
      by (intros X; apply Qltb_lt in X; congruence).
    destruct (JS.Qltb 0 debit) eqn:Ed; cbn [fst snd].
    + apply Qltb_lt in Ed.
      rewrite (proj2 (Qltb_lt (- debit) 0) (Qopp_lt_compat 0 debit Ed)).
      destruct (TransactionManager.assetKeyword desc) eqn:Ek.
      * apply assetKeyword_spec in Ek.
        repeat split; intros; solve [reflexivity | contradiction].
      * assert (Hnk : ~ hasAssetKeyword desc)
          by (intros X; apply assetKeyword_spec in X; congruence).
        repeat split; intros; solve [reflexivity | contradiction].
    + assert (Hnd : ~ 0 < debit)
        by (intros X; apply Qltb_lt in X; congruence).
      change (JS.Qltb 0 0) with false. cbn [negb].
      repeat split; intros; solve [reflexivity | contradiction].
Qed.

Lemma debit_credit_row_category_witness :
  Transaction.category
    (Transaction.mk "TX-CSV-0-1" "2024-06-02" "Beli motor bekas"
       Asset (- (100)) "PO-1" (Some "1002")) = Asset.
Proof.
  assert (Hlay : debitCreditLayout debitCreditRoles)
    by (split; vm_compute; discriminate).
  apply (proj1 (proj2
           (debit_credit_row_category (fun _ => 0%nat) (fun _ => "2024-06-30")
              debitCreditRoles 1%nat motorPurchaseRow
              (Transaction.mk "TX-CSV-0-1" "2024-06-02" "Beli motor bekas"
                 Asset (- (100)) "PO-1" (Some "1002"))
              Hlay eq_refl))).
  - vm_compute. discriminate.
  - reflexivity.
  - right; right; left. exists "beli ", " bekas". reflexivity.
Defined.

(** ** Skip policy *)

(** C7, as stated, fails: under the positional layouts, whose shortest
    form has four columns, a row of three cells with a description is
    materialized, with amount 0. *)
Lemma short_row_is_materialized :
  ~ (forall (dateNow : nat -> nat) (today : nat -> string)
       (roles : TransactionManager.ColumnRoles) (i : nat) (cols : list string),
       positionalLayout roles ->
       (List.length cols < 4)%nat ->
       TransactionManager.materializeRow dateNow today roles i cols = None).
Proof.
  intros H.
  specialize (H (fun _ => 0%nat) (fun _ => "2024-06-30") positionalRoles
                1%nat shortRow).
  assert (Hlay : positionalLayout positionalRoles).
  { split.
    - intros [Hd _]. vm_compute in Hd. now apply Hd.
    - reflexivity. }
  assert (Hlen : (List.length shortRow < 4)%nat) by (vm_compute; lia).
  specialize (H Hlay Hlen). vm_compute in H. discriminate H.
Qed.

(** C7, amended. A data row produces no Transaction exactly when its
    resolved amount is 0 and its resolved description is empty.  Under the
    positional layouts a row of fewer than four cells resolves the amount 0,
    so it is dropped when it has no description and materialized with
    amount 0 when it has one.  A dropped row changes none of the loop's
    counters; a materialized row adds one to the total and to exactly one
    of the revenue and expense counts; there is no count of skipped rows. *)
Theorem skip_policy :
  forall (dateNow : nat -> nat) (today : nat -> string)
    (roles : TransactionManager.ColumnRoles) (i : nat) (cols : list string),
    (TransactionManager.materializeRow dateNow today roles i cols = None
     <-> (rowAmount roles cols == 0 /\ rowDescription roles cols = ""))
    /\ (positionalLayout roles -> (List.length cols < 4)%nat ->
        rowAmount roles cols = 0)
    /\ (forall (delimiter : ascii) (line : string)
          (st : TransactionManager.ImportState),
          TransactionManager.splitCSVLine line delimiter = cols ->
          let st' := TransactionManager.stepRow dateNow today roles delimiter
                       i line st in
          (TransactionManager.materializeRow dateNow today roles i cols = None ->
           st' = st)
          /\ (TransactionManager.materializeRow dateNow today roles i cols
              <> None ->
              TransactionManager.parsedCount st'
              = S (TransactionManager.parsedCount st)
              /\ (TransactionManager.revCount st'
                  + TransactionManager.expCount st'
                  = S (TransactionManager.revCount st
                       + TransactionManager.expCount st))%nat)).
Proof.
  intros dateNow today roles i cols. split; [|split].
  - rewrite materializeRow_eq.
    destruct (Qeq_bool (rowAmount roles cols) 0) eqn:Ea;
      destruct (rowDescription roles cols) as [|c d] eqn:Ed; cbn.
    + apply Qeq_bool_iff in Ea. tauto.
    + split; [discriminate | intros [_ H]; discriminate H].
    + apply Qeq_bool_neq in Ea. split; [discriminate | tauto].
    + split; [discriminate | intros [_ H]; discriminate H].
  - intros [Hndc Hamt] Hlen. unfold rowAmount, TransactionManager.calculateAmount.
    destruct ((0 <=? TransactionManager.idxDebit roles)%Z
              && (0 <=? TransactionManager.idxCredit roles)%Z) eqn:Edc.
    { exfalso. apply Hndc. now apply debitCreditLayout_test. }
    destruct (Z.leb_spec 0 (TransactionManager.idxAmount roles)); [lia|].
    destruct (Nat.leb_spec 5 (List.length cols)); [lia|].
    destruct (Nat.eqb_spec (List.length cols) 4); [lia|].
    reflexivity.
  - intros delimiter line st Hcols st'. subst st'.
    unfold TransactionManager.stepRow. rewrite Hcols.
    destruct (TransactionManager.materializeRow dateNow today roles i cols)
      as [tx|].
    + split; [discriminate|]. intros _. cbn.
      destruct (JS.Qltb 0 (Transaction.amount tx)); cbn; split;
        try reflexivity; lia.
    + split; [reflexivity | intros H; now contradiction H].
Qed.

Lemma skip_policy_witness :
  rowAmount positionalRoles shortRow = 0
  /\ TransactionManager.materializeRow (fun _ => 0%nat) (fun _ => "2024-06-30")
       positionalRoles 2 ["2024-06-09"; "V-18"] = None.
Proof.
  assert (Hlay : positionalLayout positionalRoles).
  { split.
    - intros [Hd _]. vm_compute in Hd. now apply Hd.
    - reflexivity. }
  split.
  - apply (proj1 (proj2 (skip_policy (fun _ => 0%nat) (fun _ => "2024-06-30")
                           positionalRoles 1 shortRow)) Hlay).
    vm_compute. lia.
  - apply (proj1 (skip_policy (fun _ => 0%nat) (fun _ => "2024-06-30")
                    positionalRoles 2 ["2024-06-09"; "V-18"])).
    split; reflexivity.
Defined.

(** ** Credit precedence *)

(** C10. With debit and credit columns present, a row whose debit and
    credit are both positive is materialized with amount [+credit] and
    category Revenue; the cascade returns the same result for any debit. *)
Theorem credit_takes_precedence :
  forall (dateNow : nat -> nat) (today : nat -> string)
    (roles : TransactionManager.ColumnRoles) (i : nat) (cols : list string),
    debitCreditLayout roles ->
    0 < rowDebit roles cols ->
    0 < rowCredit roles cols ->
    (exists tx,
        TransactionManager.materializeRow dateNow today roles i cols = Some tx
        /\ Transaction.amount tx = rowCredit roles cols
        /\ Transaction.category tx = Revenue)
    /\ (forall anyDebit : Q,
          TransactionManager.fromDebitCredit anyDebit (rowCredit roles cols)
          = (rowCredit roles cols, Revenue)).
Proof.
  intros dateNow today roles i cols Hlay _ Hc.
  assert (Hdc : forall anyDebit : Q,
            TransactionManager.fromDebitCredit anyDebit (rowCredit roles cols)
            = (rowCredit roles cols, Revenue)).
  { intros anyDebit. unfold TransactionManager.fromDebitCredit.
    now rewrite (proj2 (Qltb_lt 0 _) Hc). }
  split; [|exact Hdc].
  assert (Hamt : rowAmount roles cols = rowCredit roles cols).
  { unfold rowAmount.
    now rewrite (calculateAmount_debitCredit roles cols Hlay), Hdc. }
  assert (Hnz : Qeq_bool (rowCredit roles cols) 0 = false).
  { destruct (Qeq_bool (rowCredit roles cols) 0) eqn:E; [|reflexivity].
    apply Qeq_bool_iff in E. rewrite E in Hc.
    exfalso. exact (Qlt_irrefl _ Hc). }
  rewrite materializeRow_eq, Hamt, Hnz. cbn [negb orb].
  eexists. split; [reflexivity|]. cbn. split; [reflexivity|].
  unfold TransactionManager.refineCategory.
  rewrite (Qltb_not_lt (rowCredit roles cols) 0)
    by (intros E; exact (Qlt_irrefl _ (Qlt_trans _ _ _ Hc E))).
  now rewrite (proj2 (Qltb_lt 0 _) Hc).
Qed.

Lemma credit_takes_precedence_witness :
  exists tx,
    TransactionManager.materializeRow (fun _ => 0%nat) (fun _ => "2024-06-30")
      debitCreditRoles 1 bothSidesRow = Some tx
    /\ Transaction.amount tx = rowCredit debitCreditRoles bothSidesRow
    /\ Transaction.category tx = Revenue.
Proof.
  assert (Hlay : debitCreditLayout debitCreditRoles)
    by (split; vm_compute; discriminate).
  apply (proj1 (credit_takes_precedence (fun _ => 0%nat)
                  (fun _ => "2024-06-30") debitCreditRoles 1 bothSidesRow
                  Hlay eq_refl eq_refl)).
Defined.

(** ** Contra account of imported transactions *)

Section ImportedContra.

Variable dateNow : nat -> nat.
Variable today : nat -> string.

Lemma stepRow_viaBank (roles : TransactionManager.ColumnRoles)
  (delimiter : ascii) (i : nat) (line : string)
  (st : TransactionManager.ImportState) :
  Forall viaBank (TransactionManager.newTransactions st) ->
  Forall viaBank
    (TransactionManager.newTransactions
       (TransactionManager.stepRow dateNow today roles delimiter i line st)).
Proof.
  intros H. unfold TransactionManager.stepRow.
  destruct (TransactionManager.materializeRow dateNow today roles i
              (TransactionManager.splitCSVLine line delimiter))
    as [tx|] eqn:E; [|exact H].
  cbn. apply Forall_app. split; [exact H|].
  constructor; [|constructor].
  exact (proj2 (proj2 (materializeRow_fields _ _ _ _ _ _ E))).
Qed.

Lemma rowLoop_viaBank (roles : TransactionManager.ColumnRoles)
  (delimiter : ascii) (lines : list string) :
  forall (i : nat) (st : TransactionManager.ImportState),
    Forall viaBank (TransactionManager.newTransactions st) ->
    Forall viaBank
      (TransactionManager.newTransactions
         (TransactionManager.rowLoop dateNow today roles delimiter i lines st)).
Proof.
  induction lines as [|line rest IH]; intros i st H; cbn.
  - exact H.
  - apply IH, stepRow_viaBank, H.
Qed.

Lemma importedTransactions_viaBank (csvText : string) :
  Forall viaBank
    (TransactionManager.importedTransactions dateNow today csvText).
Proof.
  unfold TransactionManager.importedTransactions, TransactionManager.parseCSV.
  destruct (filter _ (JS.split "010" csvText)) as [|header rows];
    [constructor|].
  destruct (0 <? _)%nat; [|constructor].
  apply rowLoop_viaBank. constructor.
Qed.

End ImportedContra.

(** C9. Every transaction the CSV import hands to the store has
    [contraAccount] "1002"; no line of its derived entry is posted to
    Accounts Payable (2000), and for an Expense the credit line is the
    Bank line (1002). *)
Theorem imported_transactions_credit_bank :
  forall (dateNow : nat -> nat) (today : nat -> string) (csvText : string)
    (tx : Transaction.t),
    In tx (TransactionManager.importedTransactions dateNow today csvText) ->
    Transaction.contraAccount tx = Some "1002"
    /\ (forall l, In l (entryLines tx) -> JournalLine.accountId l <> "2000")
    /\ (Transaction.category tx = Expense ->
        exists d,
          entryLines tx
          = [d; JournalLine.mk "1002" "Bank BCA" 0 (Qabs (Transaction.amount tx))]
          /\ JournalLine.credit d = 0).
Proof.
  intros dateNow today csvText tx Hin.
  pose proof (importedTransactions_viaBank dateNow today csvText) as Hall.
  rewrite Forall_forall in Hall. specialize (Hall tx Hin).
  unfold viaBank in Hall. split; [exact Hall|].
  unfold entryLines, AccountingView.systemJournalEntry.
  rewrite Hall. cbn [AccountingView.contraIs2000].
  change (String.eqb "1002" "2000") with false. cbv iota.
  split.
  - intros l Hl.
    destruct (Transaction.category tx); cbn [JournalEntry.lines] in Hl;
      try (destruct (JS.includes _ "maintenance" || JS.includes _ "parts"));
      cbn in Hl;
      repeat (destruct Hl as [<- | Hl]; [cbn; discriminate|]);
      contradiction.
  - intros Hcat. rewrite Hcat. cbn [JournalEntry.lines].
    eexists. split; reflexivity.
Qed.

Lemma imported_transactions_credit_bank_witness :
  Transaction.contraAccount
    (Transaction.mk "TX-CSV-0-2" "2024-06-02" "Purchase Parts (Tires)"
       Expense (- (2500000)) "PO-502" (Some "1002")) = Some "1002".
Proof.
  apply (imported_transactions_credit_bank (fun _ => 0%nat)
           (fun _ => "2024-06-30") transactionsCsv
           (Transaction.mk "TX-CSV-0-2" "2024-06-02" "Purchase Parts (Tires)"
              Expense (- (2500000)) "PO-502" (Some "1002"))).
  vm_compute. right; left; reflexivity.
Defined.

(** * Further properties *)

(** ** Journal derivation and the chart of accounts *)

(** X1. Every line of a system-derived entry carries the code and the name
    of an account of the chart, and its code is one of 1002, 4000, 5001,
    5002, 2000 and 1200: Cash on Hand (1001), Accounts Receivable (1100)
    and Owner Capital (3000) are never posted to. *)
Theorem derived_lines_use_chart_accounts :
  forall (tx : Transaction.t) (l : JournalLine.t),
    In l (entryLines tx) ->
    In (JournalLine.accountId l, JournalLine.accountName l) chartPairs
    /\ In (JournalLine.accountId l) postingCodes.
Proof.
  intros tx l Hin. unfold entryLines, AccountingView.systemJournalEntry in Hin.
  destruct (Transaction.category tx); cbn [JournalEntry.lines] in Hin;
    try destruct (JS.includes _ "maintenance" || JS.includes _ "parts");
    try destruct (AccountingView.contraIs2000 _);
    cbn in Hin;
    repeat (destruct Hin as [<- | Hin]; [split; in_list|]);
    contradiction.
Qed.

Lemma derived_lines_use_chart_accounts_witness :
  In ("2000", "Accounts Payable") chartPairs /\ In "2000" postingCodes.
Proof.
  apply (derived_lines_use_chart_accounts TX002
           (JournalLine.mk "2000" "Accounts Payable" 0 (Qabs (-2500000)))).
  right; left; reflexivity.
Defined.

Lemma Qabs_opp_eq (a : Q) : Qabs (- a) = Qabs a.
Proof.
  destruct a as [n d]. unfold Qabs, Qopp. cbn. now rewrite Z.abs_opp.
Qed.

(** X2. The lines of a derived entry depend on the amount only through its
    absolute value: a transaction and the same transaction with the
    opposite amount give the same lines. *)
Theorem derived_lines_ignore_sign :
  forall (tx : Transaction.t) (a : Q),
    entryLines (setAmount tx (- a)) = entryLines (setAmount tx a).
Proof.
  intros tx a. unfold entryLines, AccountingView.systemJournalEntry, setAmount.
  cbn [Transaction.amount Transaction.category Transaction.description
       Transaction.contraAccount JournalEntry.lines].
  now rewrite Qabs_opp_eq.
Qed.

(** ** The income statement of a transaction store *)











(** ** Listing order *)

Section SortedByTime.

Context {A : Type} (key : A -> option Z).

Lemma insertSorted_perm (cmp : A -> A -> bool) (x : A) (l : list A) :
  Permutation (x :: l) (JS.insertSorted cmp x l).
Proof.
  induction l as [|y l IH]; cbn.
  - apply Permutation_refl.
  - destruct (cmp x y).
    + eapply perm_trans; [apply perm_swap|]. now apply perm_skip.
    + apply Permutation_refl.
Qed.

Lemma sort_perm (cmp : A -> A -> bool) (l : list A) :
  Permutation l (JS.sort cmp l).
Proof.
  induction l as [|x l IH]; cbn.
  - apply perm_nil.
  - eapply perm_trans; [apply perm_skip, IH | apply insertSorted_perm].
Qed.

Lemma sort_ext (c1 c2 : A -> A -> bool) (l : list A) :
  (forall x y, c1 x y = c2 x y) -> JS.sort c1 l = JS.sort c2 l.
Proof.
  intros H. induction l as [|x l IH]; [reflexivity|].
  cbn. rewrite IH. generalize (JS.sort c2 l). intros m.
  induction m as [|y m IHm]; [reflexivity|].
  cbn. now rewrite H, IHm.
Qed.

Lemma insertSorted_sorted (x : A) (l : list A) :
  key x <> None ->
  Forall (fun y => key y <> None) l ->
  Sorted (newestFirst key) l ->
  Sorted (newestFirst key) (JS.insertSorted (keyAfter key) x l).
Proof.
  intros Hx Hl Hs. induction Hs as [|y r Hr IH Hhd].
  - cbn. constructor; constructor.
  - inversion Hl as [|? ? Hy Hr']; subst. cbn [JS.insertSorted].
    destruct (key x) as [tx|] eqn:Ex; [|contradiction].
    destruct (key y) as [ty|] eqn:Ey; [|contradiction].
    unfold keyAfter at 1. rewrite Ex, Ey.
    destruct (Z.ltb_spec 0 (ty - tx)).
    + constructor; [apply IH; assumption|].
      destruct r as [|z r]; cbn.
      * constructor. exists ty, tx. repeat split; [assumption..|lia].
      * destruct (keyAfter key x z).
        -- inversion Hhd; subst. now constructor.
        -- constructor. exists ty, tx. repeat split; [assumption..|lia].
    + constructor; [now constructor|].
      constructor. exists tx, ty. repeat split; [assumption..|lia].
Qed.

Lemma sort_sorted (l : list A) :
  Forall (fun y => key y <> None) l ->
  Sorted (newestFirst key) (JS.sort (keyAfter key) l).
Proof.
  induction l as [|x l IH]; intros Hl; cbn.
  - constructor.
  - inversion Hl as [|? ? Hx Hl']; subst.
    apply insertSorted_sorted; [assumption| |now apply IH].
    rewrite Forall_forall in *. intros y Hy. apply Hl'.
    eapply Permutation_in; [apply Permutation_sym, sort_perm | exact Hy].
Qed.

End SortedByTime.

Lemma sortEntries_is_sort (getTime : string -> option Z)
  (l : list JournalEntry.t) :
  AccountingView.sortEntries getTime l
  = JS.sort (keyAfter (entryTime getTime)) l.
Proof.
  rewrite <- (sort_ext (AccountingView.comesAfter getTime)).
  - induction l as [|x l IH]; [reflexivity|].
    cbn. rewrite IH.
    generalize (JS.sort (AccountingView.comesAfter getTime) l).
    intros m. induction m as [|y m IHm]; [reflexivity|].
    cbn. now rewrite IHm.
  - intros x y. unfold AccountingView.comesAfter,
      AccountingView.compareByDate, keyAfter, entryTime.
    now destruct (getTime (JournalEntry.date y)),
      (getTime (JournalEntry.date x)).
Qed.

(** X6. The combined journal holds exactly the uploaded and the
    system-derived entries, none lost and none repeated; when every entry
    has a valid date it is listed newest first. *)
Theorem journal_listed_newest_first :
  forall (getTime : string -> option Z)
    (uploaded system : list JournalEntry.t),
    Permutation (uploaded ++ system)
      (AccountingView.allJournalEntries getTime uploaded system)
    /\ ((forall e, In e (uploaded ++ system) ->
           getTime (JournalEntry.date e) <> None) ->
        Sorted (newestFirst (entryTime getTime))
          (AccountingView.allJournalEntries getTime uploaded system)).
Proof.
  intros getTime uploaded system. split.
  - apply allJournalEntries_perm.
  - intros Hvalid. unfold AccountingView.allJournalEntries.
    rewrite sortEntries_is_sort.
    apply sort_sorted. now apply Forall_forall.
Qed.

Lemma journal_listed_newest_first_witness :
  Sorted (newestFirst (entryTime sampleTime))
    (AccountingView.allJournalEntries sampleTime
       [openingEntry] [AccountingView.systemJournalEntry TX001]).
Proof.
  apply (proj2 (journal_listed_newest_first sampleTime
                  [openingEntry] [AccountingView.systemJournalEntry TX001])).
  intros e [<- | [<- | []]]; discriminate.
Defined.

(** ** The transaction list *)

Lemma includes_empty (s : string) : JS.includes s "" = true.
Proof. destruct s; reflexivity. Qed.

Lemma matchesSearch_empty (t : Transaction.t) :
  TransactionManager.matchesSearch "" t = true.
Proof.
  unfold TransactionManager.matchesSearch. cbn [JS.toLowerCase].
  now rewrite includes_empty.
Qed.

Lemma filter_all {A : Type} (p : A -> bool) (l : list A) :
  (forall x, p x = true) -> filter p l = l.
Proof.
  intros H. induction l as [|x l IH]; [reflexivity|].
  cbn. now rewrite H, IH.
Qed.

(** X7. The transaction list shows exactly the stored transactions whose
    lower-cased description or reference contains the lower-cased search
    term, each as often as it is stored; with an empty search term it shows
    all of them; when every shown date is valid the list is ordered newest
    first. *)
Theorem filteredTransactions_spec :
  forall (getTime : string -> option Z) (transactions : list Transaction.t)
    (searchTerm : string),
    let shown :=
      TransactionManager.filteredTransactions getTime transactions searchTerm in
    Permutation (filter (TransactionManager.matchesSearch searchTerm) transactions)
      shown
    /\ (forall t, In t shown <->
          In t transactions
          /\ (contains (JS.toLowerCase (Transaction.description t))
                (JS.toLowerCase searchTerm)
              \/ contains (JS.toLowerCase (Transaction.reference t))
                   (JS.toLowerCase searchTerm)))
    /\ Permutation transactions
         (TransactionManager.filteredTransactions getTime transactions "")
    /\ ((forall t, In t shown -> getTime (Transaction.date t) <> None) ->
        Sorted (newestFirst (transactionTime getTime)) shown).
Proof.
  intros getTime transactions searchTerm shown. subst shown.
  unfold TransactionManager.filteredTransactions.
  assert (Hperm : forall term,
            Permutation (filter (TransactionManager.matchesSearch term) transactions)
              (JS.sort (TransactionManager.newerFirst getTime)
                 (filter (TransactionManager.matchesSearch term) transactions)))
    by (intros term; apply sort_perm).
  split; [apply Hperm|]. split; [|split].
  - intros t. split.
    + intros Hin. apply (Permutation_in _ (Permutation_sym (Hperm searchTerm))) in Hin.
      apply filter_In in Hin as [Hin Hm]. split; [exact Hin|].
      unfold TransactionManager.matchesSearch in Hm.
      apply orb_true_iff in Hm. now rewrite !includes_spec in Hm.
    + intros [Hin Hm]. apply (Permutation_in _ (Hperm searchTerm)).
      apply filter_In. split; [exact Hin|].
      unfold TransactionManager.matchesSearch.
      apply orb_true_iff. now rewrite !includes_spec.
  - rewrite (filter_all _ _ matchesSearch_empty). apply sort_perm.
  - intros Hvalid.
    change (TransactionManager.newerFirst getTime)
      with (keyAfter (transactionTime getTime)).
    apply sort_sorted. apply Forall_forall. intros t Ht.
    apply Hvalid. apply (Permutation_in _ (Hperm searchTerm)). exact Ht.
Qed.

Lemma filteredTransactions_spec_witness :
  Sorted (newestFirst (transactionTime sampleTime))
    (TransactionManager.filteredTransactions sampleTime [TX001; TX002; TX004]
       "RENT").
Proof.
  apply (proj2 (proj2 (proj2
           (filteredTransactions_spec sampleTime [TX001; TX002; TX004] "RENT")))).
  intros t Ht. vm_compute in Ht.
  destruct Ht as [<- | [<- | []]]; discriminate.
Defined.

(** ** Manual entry *)

Lemma Qabs_Qabs_eq (a : Q) : Qabs (Qabs a) = Qabs a.
Proof.
  destruct a as [n d]. unfold Qabs. now rewrite Z.abs_idemp.
Qed.

Lemma stringOr_nonempty (x : option string) (fallback : string) :
  fallback <> "" -> TransactionManager.stringOr x fallback <> "".
Proof.
  intros Hf. unfold TransactionManager.stringOr, TransactionManager.orElse.
  destruct x as [[|c s]|]; cbn; try exact Hf. discriminate.
Qed.

Lemma submitted_abs (dateNow randomRef : nat)
  (form : TransactionManager.FormData) :
  Qabs (Transaction.amount
          (TransactionManager.handleSubmit dateNow randomRef form))
  = Qabs (TransactionManager.amountOrZero (TransactionManager.formAmount form)).
Proof.
  unfold TransactionManager.handleSubmit. cbn [Transaction.amount].
  destruct (TransactionManager.formCategory form);
    now rewrite ?Qabs_opp_eq, Qabs_Qabs_eq.
Qed.

(** X8. Whatever sign was typed into the form, the stored amount is
    negative or zero for an Expense or Asset and positive or zero
    otherwise; its absolute value is that of the typed amount (0 for an
    emptied field); the reference is never empty; and the derived entry
    debits and credits exactly that absolute value when the category
    is Revenue, Expense or Asset. *)
Theorem handleSubmit_sign_convention :
  forall (dateNow randomRef : nat) (form : TransactionManager.FormData),
    let tx := TransactionManager.handleSubmit dateNow randomRef form in
    let typed :=
      Qabs (TransactionManager.amountOrZero (TransactionManager.formAmount form)) in
    (match TransactionManager.formCategory form with
     | Expense | Asset => Transaction.amount tx <= 0
     | _ => 0 <= Transaction.amount tx
     end)
    /\ Qabs (Transaction.amount tx) = typed
    /\ Transaction.reference tx <> ""
    /\ (match TransactionManager.formCategory form with
        | Revenue | Expense | Asset =>
            sumDebit (entryLines tx) == typed
            /\ sumCredit (entryLines tx) == typed
        | _ => entryLines tx = []
        end).
Proof.
  intros dateNow randomRef form tx typed. subst tx typed.
  split; [|split; [|split]].
  - unfold TransactionManager.handleSubmit. cbn [Transaction.amount].
    pose proof (Qabs_nonneg (TransactionManager.amountOrZero
                               (TransactionManager.formAmount form))) as H.
    destruct (TransactionManager.formCategory form); try exact H;
      apply (Qopp_le_compat 0 _ H).
  - apply submitted_abs.
  - unfold TransactionManager.handleSubmit. cbn [Transaction.reference].
    apply stringOr_nonempty. discriminate.
  - unfold entryLines, AccountingView.systemJournalEntry.
    rewrite submitted_abs.
    unfold TransactionManager.handleSubmit.
    cbn [Transaction.category Transaction.description
         Transaction.contraAccount].
    destruct (TransactionManager.formCategory form);
      cbn [JournalEntry.lines]; try reflexivity;
      try destruct (AccountingView.contraIs2000 _);
      unfold sumDebit, sumCredit; cbn; split; ring.
Qed.

(** X9. The payment method of the form only matters for an Expense paid
    on credit: two forms that differ in the contra account alone give the
    same journal lines unless the category is Expense and one of the two
    selects Accounts Payable (2000).  Choosing Cash on Hand (1001) posts to
    the bank account like choosing Bank (1002). *)
Theorem contra_account_only_for_payables :
  forall (dateNow randomRef : nat) (form : TransactionManager.FormData)
    (c1 c2 : option string),
    TransactionManager.formCategory form <> Expense
    \/ (c1 <> Some "2000" /\ c2 <> Some "2000") ->
    entryLines (TransactionManager.handleSubmit dateNow randomRef
                  (setContra form c1))
    = entryLines (TransactionManager.handleSubmit dateNow randomRef
                    (setContra form c2)).
Proof.
  intros dateNow randomRef form c1 c2 H.
  unfold entryLines, AccountingView.systemJournalEntry,
    TransactionManager.handleSubmit, setContra.
  cbn [Transaction.amount Transaction.category Transaction.description
       Transaction.contraAccount JournalEntry.lines
       TransactionManager.formCategory TransactionManager.formAmount
       TransactionManager.formDescription TransactionManager.formContraAccount].
  destruct (TransactionManager.formCategory form); try reflexivity.
  destruct H as [H | [H1 H2]]; [now contradiction H|].
  assert (E1 : AccountingView.contraIs2000 c1 = false).
  { destruct (AccountingView.contraIs2000 c1) eqn:E; [|reflexivity].
    apply contraIs2000_spec in E. contradiction. }
  assert (E2 : AccountingView.contraIs2000 c2 = false).
  { destruct (AccountingView.contraIs2000 c2) eqn:E; [|reflexivity].
    apply contraIs2000_spec in E. contradiction. }
  now rewrite E1, E2.
Qed.

Lemma contra_account_only_for_payables_witness :
  entryLines (TransactionManager.handleSubmit 17 417
                (setContra partsForm (Some "1001")))
  = entryLines (TransactionManager.handleSubmit 17 417
                  (setContra partsForm (Some "1002"))).
Proof.
  apply (contra_account_only_for_payables 17 417 partsForm
           (Some "1001") (Some "1002")).
  right. split; discriminate.
Defined.

(** ** Recording a transaction *)




(** ** Invariants of the CSV import of transactions *)

Section ImportInvariants.

Variable dateNow : nat -> nat.
Variable today : nat -> string.

Lemma materializeRow_description (roles : TransactionManager.ColumnRoles)
  (i : nat) (cols : list string) (tx : Transaction.t) :
  TransactionManager.materializeRow dateNow today roles i cols = Some tx ->
  Transaction.description tx
  = TransactionManager.orElse (rowDescription roles cols) "Imported Transaction"
  /\ Transaction.reference tx
     = TransactionManager.orElse
         (TransactionManager.valOrColumn cols
            (TransactionManager.idxRef roles) 1)
         ("CSV-" ++ JS.natToString i)
  /\ Transaction.id tx = csvId dateNow i.
Proof.
  rewrite materializeRow_eq.
  destruct (_ || _); [|discriminate].
  intros [= <-]. repeat split.
Qed.

Lemma stepRow_Forall (P : Transaction.t -> Prop) :
  (forall roles i cols tx,
     TransactionManager.materializeRow dateNow today roles i cols = Some tx ->
     P tx) ->
  forall roles delimiter i line st,
    Forall P (TransactionManager.newTransactions st) ->
    Forall P
      (TransactionManager.newTransactions
         (TransactionManager.stepRow dateNow today roles delimiter i line st)).
Proof.
  intros HP roles delimiter i line st H. unfold TransactionManager.stepRow.
  destruct (TransactionManager.materializeRow dateNow today roles i
              (TransactionManager.splitCSVLine line delimiter))
    as [tx|] eqn:E; [|exact H].
  cbn. apply Forall_app. split; [exact H|].
  constructor; [|constructor]. exact (HP _ _ _ _ E).
Qed.

Lemma rowLoop_Forall (P : Transaction.t -> Prop) :
  (forall roles i cols tx,
     TransactionManager.materializeRow dateNow today roles i cols = Some tx ->
     P tx) ->
  forall roles delimiter lines i st,
    Forall P (TransactionManager.newTransactions st) ->
    Forall P
      (TransactionManager.newTransactions
         (TransactionManager.rowLoop dateNow today roles delimiter i lines st)).
Proof.
  intros HP roles delimiter lines.
  induction lines as [|line rest IH]; intros i st H; cbn.
  - exact H.
  - apply IH, stepRow_Forall; assumption.
Qed.

Lemma importedTransactions_Forall (P : Transaction.t -> Prop) :
  (forall roles i cols tx,
     TransactionManager.materializeRow dateNow today roles i cols = Some tx ->
     P tx) ->
  forall csvText,
    Forall P (TransactionManager.importedTransactions dateNow today csvText).
Proof.
  intros HP csvText.
  unfold TransactionManager.importedTransactions, TransactionManager.parseCSV.
  destruct (filter _ (JS.split "010" csvText)) as [|header rows];
    [constructor|].
  destruct (0 <? _)%nat; [|constructor].
  apply rowLoop_Forall; [exact HP | constructor].
Qed.

Lemma calculateAmount_category (roles : TransactionManager.ColumnRoles)
  (cols : list string) :
  snd (TransactionManager.calculateAmount roles cols) = Revenue
  \/ (snd (TransactionManager.calculateAmount roles cols) = Expense
      /\ fst (TransactionManager.calculateAmount roles cols) < 0).
Proof.
  assert (Hdc : forall d c,
            snd (TransactionManager.fromDebitCredit d c) = Revenue
            \/ (snd (TransactionManager.fromDebitCredit d c) = Expense
                /\ fst (TransactionManager.fromDebitCredit d c) < 0)).
  { intros d c. unfold TransactionManager.fromDebitCredit.
    destruct (JS.Qltb 0 c); [now left|].
    destruct (JS.Qltb 0 d) eqn:Ed; [|now left].
    right. split; [reflexivity|]. cbn [fst].
    apply Qltb_lt in Ed. exact (Qopp_lt_compat 0 d Ed). }
  unfold TransactionManager.calculateAmount.
  repeat match goal with
         | |- context [if ?b then _ else _] => destruct b
         end; auto.
Qed.

Lemma orElse_nonempty (s fallback : string) :
  fallback <> "" -> TransactionManager.orElse s fallback <> "".
Proof.
  intros H. unfold TransactionManager.orElse.
  destruct s; cbn; [exact H | discriminate].
Qed.

Lemma row_category_by_sign (roles : TransactionManager.ColumnRoles)
  (i : nat) (cols : list string) (tx : Transaction.t) :
  TransactionManager.materializeRow dateNow today roles i cols = Some tx ->
  categoryBySign tx /\ Transaction.description tx <> ""
  /\ Transaction.reference tx <> "".
Proof.
  intros H.
  destruct (materializeRow_fields _ _ _ _ _ _ H) as (Ha & Hc & _).
  destruct (materializeRow_description _ _ _ _ H) as (Hd & Hr & _).
  split; [|split].
  2: { rewrite Hd. apply orElse_nonempty. discriminate. }
  2: { rewrite Hr. apply orElse_nonempty. discriminate. }
  assert (Hkey : TransactionManager.assetKeyword (rowDescription roles cols)
                 = TransactionManager.assetKeyword (Transaction.description tx)).
  { rewrite Hd. unfold TransactionManager.orElse.
    destruct (rowDescription roles cols); reflexivity. }
  unfold categoryBySign. rewrite Hc, Ha.
  unfold TransactionManager.refineCategory. rewrite Hkey.
  pose proof (assetKeyword_spec (Transaction.description tx)) as Hk.
  destruct (JS.Qltb (rowAmount roles cols) 0) eqn:En.
  - apply Qltb_lt in En.
    destruct (TransactionManager.assetKeyword (Transaction.description tx)).
    + repeat split; intros; try reflexivity.
      * exfalso. apply H1, Hk. reflexivity.
      * exfalso. exact (Qlt_not_le _ _ En H0).
    + repeat split; intros; try reflexivity.
      * apply Hk in H1. discriminate H1.
      * exfalso. exact (Qlt_not_le _ _ En H0).
  - assert (Hn : ~ rowAmount roles cols < 0)
      by (intros X; apply Qltb_lt in X; congruence).
    destruct (JS.Qltb 0 (rowAmount roles cols)) eqn:Ep.
    + repeat split; intros; solve [reflexivity | contradiction].
    + destruct (calculateAmount_category roles cols) as [Hrev | [_ Hneg]].
      * rewrite Hrev. repeat split; intros; solve [reflexivity | contradiction].
      * contradiction.
Qed.

End ImportInvariants.

(** X11. Every transaction the CSV import hands to the store has its
    category fixed by its amount and description: Revenue when the amount
    is zero or positive; otherwise Asset when the description contains
    "asset", "aset", "motor" or "unit" and Expense when it does not (so
    never Liability or Equity).  Its description and its reference are
    never empty. *)
Theorem imported_category_follows_sign :
  forall (dateNow : nat -> nat) (today : nat -> string) (csvText : string)
    (tx : Transaction.t),
    In tx (TransactionManager.importedTransactions dateNow today csvText) ->
    categoryBySign tx
    /\ Transaction.description tx <> ""
    /\ Transaction.reference tx <> "".
Proof.
  intros dateNow today csvText tx Hin.
  pose proof (importedTransactions_Forall dateNow today _
                (row_category_by_sign dateNow today) csvText) as H.
  rewrite Forall_forall in H. exact (H tx Hin).
Qed.

Lemma imported_category_follows_sign_witness :
  categoryBySign
    (Transaction.mk "TX-CSV-0-2" "2024-06-02" "Purchase Parts (Tires)"
       Expense (- (2500000)) "PO-502" (Some "1002")).
Proof.
  apply (imported_category_follows_sign (fun _ => 0%nat)
           (fun _ => "2024-06-30") transactionsCsv
           (Transaction.mk "TX-CSV-0-2" "2024-06-02" "Purchase Parts (Tires)"
              Expense (- (2500000)) "PO-502" (Some "1002"))).
  vm_compute. right; left; reflexivity.
Defined.

(** ** Figures of the import message *)

Section ImportCounters.

Variable dateNow : nat -> nat.
Variable today : nat -> string.

Lemma stepRow_counters roles delimiter i line st :
  countersAgree st ->
  countersAgree
    (TransactionManager.stepRow dateNow today roles delimiter i line st).
Proof.
  intros (Hp & Hr & He). unfold TransactionManager.stepRow.
  destruct (TransactionManager.materializeRow _ _ _ _ _) as [tx|];
    [|now repeat split].
  unfold countersAgree.
  cbn [TransactionManager.newTransactions TransactionManager.parsedCount
       TransactionManager.revCount TransactionManager.expCount].
  rewrite !filter_app, !length_app, Hp, Hr, He. cbn [filter].
  change (JS.Qltb 0 (Transaction.amount tx)) with (positiveAmount tx).
  destruct (positiveAmount tx); cbn [negb List.length]; repeat split; lia.
Qed.

Lemma rowLoop_counters roles delimiter lines :
  forall i st,
    countersAgree st ->
    countersAgree
      (TransactionManager.rowLoop dateNow today roles delimiter i lines st).
Proof.
  induction lines as [|line rest IH]; intros i st H; cbn.
  - exact H.
  - apply IH, stepRow_counters, H.
Qed.

End ImportCounters.

(** X12. When an import succeeds the batch is not empty and the figures
    of its message agree with it: the total is the number of transactions,
    the revenue figure the number of those with a positive amount, and the
    expense figure the number of all the others, zero amounts included;
    the delimiter reported is the one detected on the raw text. *)
Theorem import_figures_agree :
  forall (dateNow : nat -> nat) (today : nat -> string) (csvText : string)
    (batch : list Transaction.t) (delimiter : ascii)
    (total revenueItems expenseItems : nat),
    TransactionManager.parseCSV dateNow today csvText
    = TransactionManager.ImportSuccessful batch delimiter total revenueItems
        expenseItems ->
    batch <> []
    /\ total = List.length batch
    /\ revenueItems = List.length (filter positiveAmount batch)
    /\ expenseItems
       = List.length (filter (fun t => negb (positiveAmount t)) batch)
    /\ (revenueItems + expenseItems = total)%nat
    /\ delimiter = TransactionManager.detectDelimiter csvText.
Proof.
  intros dateNow today csvText batch delimiter total rev exp.
  unfold TransactionManager.parseCSV.
  destruct (filter _ (JS.split "010" csvText)) as [|header rows];
    [discriminate|].
  set (st := TransactionManager.rowLoop _ _ _ _ _ _ _).
  assert (Hinv : countersAgree st).
  { apply rowLoop_counters. repeat split. }
  destruct (Nat.ltb_spec 0 (List.length (TransactionManager.newTransactions st)))
    as [Hlen|]; [|discriminate].
  intros [= <- <- <- <- <-].
  destruct Hinv as (Hp & Hr & He).
  split; [intros E; rewrite E in Hlen; cbn in Hlen; lia|].
  repeat split; try assumption.
  rewrite Hp, Hr, He.
  clear. induction (TransactionManager.newTransactions st) as [|t l IH];
    [reflexivity|].
  cbn. destruct (positiveAmount t); cbn; lia.
Qed.

Lemma import_figures_agree_witness :
  TransactionManager.importedTransactions (fun _ => 17%nat)
    (fun _ => "2024-06-30") transactionsCsv <> []
  /\ (2 = List.length
             (TransactionManager.importedTransactions (fun _ => 17%nat)
                (fun _ => "2024-06-30") transactionsCsv))%nat.
Proof.
  destruct (import_figures_agree (fun _ => 17%nat) (fun _ => "2024-06-30")
              transactionsCsv
              (TransactionManager.importedTransactions (fun _ => 17%nat)
                 (fun _ => "2024-06-30") transactionsCsv)
              "," 2 1 1) as (H1 & H2 & _).
  - vm_compute. reflexivity.
  - split; assumption.
Defined.

(** ** Files that yield nothing *)

Lemma rowLoop_nil dateNow today roles delimiter i st :
  TransactionManager.rowLoop dateNow today roles delimiter i [] st = st.
Proof. reflexivity. Qed.

(** X13. A text without a line break never adds a transaction: the import
    returns silently when the text is blank and reports "no valid data"
    otherwise, because its only line is taken as the header.  The same
    silent return happens for any text all of whose lines are blank. *)
Theorem import_needs_a_data_row :
  forall (dateNow : nat -> nat) (today : nat -> string) (csvText : string),
    (JS.countChar newline csvText = 0%nat ->
     TransactionManager.parseCSV dateNow today csvText
     = (if nonBlank csvText then TransactionManager.NoValidData
        else TransactionManager.NothingRead))
    /\ (Forall (fun l => nonBlank l = false) (JS.split newline csvText) ->
        TransactionManager.parseCSV dateNow today csvText
        = TransactionManager.NothingRead).
Proof.
  intros dateNow today csvText. split.
  - intros H. unfold TransactionManager.parseCSV. fold newline.
    rewrite (split_single newline csvText H). cbn [filter].
    fold (nonBlank csvText). destruct (nonBlank csvText); reflexivity.
  - intros H. unfold TransactionManager.parseCSV. fold newline.
    replace (filter _ (JS.split newline csvText)) with (@nil string);
      [reflexivity|].
    symmetry. induction H as [|l ls Hl _ IH]; [reflexivity|].
    cbn [filter]. fold (nonBlank l). now rewrite Hl.
Qed.

Lemma import_needs_a_data_row_witness :
  TransactionManager.parseCSV (fun _ => 17%nat) (fun _ => "2024-06-30")
    "date,ref,description,amount"
  = TransactionManager.NoValidData
  /\ TransactionManager.parseCSV (fun _ => 17%nat) (fun _ => "2024-06-30")
       (String newline (String " " (String newline "")))
     = TransactionManager.NothingRead.
Proof.
  split.
  - apply (proj1 (import_needs_a_data_row (fun _ => 17%nat)
                    (fun _ => "2024-06-30") "date,ref,description,amount")).
    reflexivity.
  - apply (proj2 (import_needs_a_data_row (fun _ => 17%nat)
                    (fun _ => "2024-06-30")
                    (String newline (String " " (String newline ""))))).
    repeat constructor.
Defined.

(** ** Identifiers of imported transactions *)

Lemma string_of_uint_digits (d : Decimal.uint) :
  allDigits (NilEmpty.string_of_uint d) = true.
Proof. induction d; cbn; auto. Qed.

Lemma natToString_digits (n : nat) : allDigits (JS.natToString n) = true.
Proof. apply string_of_uint_digits. Qed.

Lemma natToString_inj (n m : nat) :
  JS.natToString n = JS.natToString m -> n = m.
Proof.
  unfold JS.natToString. intros H.
  apply (f_equal NilEmpty.uint_of_string) in H.
  rewrite !NilEmpty.usu in H. injection H as H.
  now apply DecimalNat.Unsigned.to_uint_inj.
Qed.

Lemma split_at_dash (a a' b b' : string) :
  allDigits a = true -> allDigits a' = true ->
  a ++ String "-" b = a' ++ String "-" b' -> a = a' /\ b = b'.
Proof.
  revert a'. induction a as [|c a IH]; intros [|c' a'] Ha Ha' H; cbn in *.
  - injection H as H. now split.
  - injection H as Hc _. subst c'. discriminate Ha'.
  - injection H as Hc _. subst c. discriminate Ha.
  - injection H as Hc H. subst c'.
    apply andb_true_iff in Ha as [_ Ha]. apply andb_true_iff in Ha' as [_ Ha'].
    destruct (IH a' Ha Ha' H) as [-> ->]. now split.
Qed.

Lemma csvId_inj (dateNow : nat -> nat) (i j : nat) :
  csvId dateNow i = csvId dateNow j -> i = j.
Proof.
  unfold csvId. intros H. cbn in H. injection H as H.
  apply split_at_dash in H; try apply natToString_digits.
  destruct H as [_ H]. now apply natToString_inj.
Qed.

Section ImportIds.

Variable dateNow : nat -> nat.
Variable today : nat -> string.

Lemma stepRow_ids roles delimiter i line st :
  Forall (fun tx => exists j, (j < i)%nat /\ Transaction.id tx = csvId dateNow j)
    (TransactionManager.newTransactions st) ->
  NoDup (map Transaction.id (TransactionManager.newTransactions st)) ->
  Forall (fun tx => exists j, (j < S i)%nat
                              /\ Transaction.id tx = csvId dateNow j)
    (TransactionManager.newTransactions
       (TransactionManager.stepRow dateNow today roles delimiter i line st))
  /\ NoDup (map Transaction.id
              (TransactionManager.newTransactions
                 (TransactionManager.stepRow dateNow today roles delimiter
                    i line st))).
Proof.
  intros Hall Hnd.
  assert (Hweak : Forall (fun tx => exists j, (j < S i)%nat
                                     /\ Transaction.id tx = csvId dateNow j)
                    (TransactionManager.newTransactions st)).
  { eapply Forall_impl; [|exact Hall]. intros tx (j & Hj & E).
    exists j. split; [lia | exact E]. }
  unfold TransactionManager.stepRow.
  destruct (TransactionManager.materializeRow dateNow today roles i
              (TransactionManager.splitCSVLine line delimiter))
    as [tx|] eqn:E; [|now split].
  destruct (materializeRow_description _ _ _ _ _ _ E) as (_ & _ & Hid).
  cbn [TransactionManager.newTransactions]. split.
  - apply Forall_app. split; [exact Hweak|].
    constructor; [|constructor]. exists i. split; [lia | exact Hid].
  - rewrite map_app. cbn [map].
    apply (Permutation_NoDup (Permutation_cons_append _ _)).
    constructor; [|exact Hnd].
    intros Hin. apply in_map_iff in Hin as (tx' & Heq & Hin').
    rewrite Forall_forall in Hall.
    destruct (Hall tx' Hin') as (j & Hj & Ej).
    rewrite Ej, Hid in Heq. apply csvId_inj in Heq. lia.
Qed.

Lemma rowLoop_ids roles delimiter lines :
  forall i st,
    Forall (fun tx => exists j, (j < i)%nat /\ Transaction.id tx = csvId dateNow j)
      (TransactionManager.newTransactions st) ->
    NoDup (map Transaction.id (TransactionManager.newTransactions st)) ->
    NoDup (map Transaction.id
             (TransactionManager.newTransactions
                (TransactionManager.rowLoop dateNow today roles delimiter
                   i lines st))).
Proof.
  induction lines as [|line rest IH]; intros i st Hall Hnd; cbn.
  - exact Hnd.
  - destruct (stepRow_ids roles delimiter i line st Hall Hnd) as [H1 H2].
    now apply IH.
Qed.

End ImportIds.

(** X14. The transactions of one import carry pairwise distinct ids,
    whatever the clock returns: the id ends in the line number, and the two
    numbers in it are separated unambiguously. *)
Theorem imported_ids_distinct :
  forall (dateNow : nat -> nat) (today : nat -> string) (csvText : string),
    NoDup (map Transaction.id
             (TransactionManager.importedTransactions dateNow today csvText)).
Proof.
  intros dateNow today csvText.
  unfold TransactionManager.importedTransactions, TransactionManager.parseCSV.
  destruct (filter _ (JS.split "010" csvText)) as [|header rows];
    [constructor|].
  destruct (0 <? _)%nat; [|constructor].
  apply rowLoop_ids; constructor.
Qed.

(** ** Net income after an import *)




(** ** Strings of digits *)

Lemma append_nil_r (s : string) : s ++ "" = s.
Proof. induction s as [|c s IH]; cbn; now rewrite ?IH. Qed.

Lemma append_assoc (a b c : string) : (a ++ b) ++ c = a ++ (b ++ c).
Proof. induction a as [|x a IH]; cbn; now rewrite ?IH. Qed.


Lemma digit_lower (c : ascii) : JS.isDigit c = true -> JS.lowerChar c = c.
Proof. intros H. digit_cases c H; reflexivity. Qed.











Lemma keepChars_all (keep : ascii -> bool) (s : string) :
  (forall c, JS.countChar c s <> 0%nat -> keep c = true) ->
  JS.keepChars keep s = s.
Proof.
  induction s as [|x s IH]; intros H; [reflexivity|]. cbn.
  rewrite (H x) by (cbn; rewrite Ascii.eqb_refl; lia).
  rewrite IH; [reflexivity|].
  intros c Hc. apply H. cbn. destruct (Ascii.eqb x c); lia.
Qed.













(** ** The currency parser on well-formed numbers *)















Section Shapes.

Variables a b c : string.
Hypothesis Ha : allDigits a = true.
Hypothesis Hb : allDigits b = true.
Hypothesis Hc : allDigits c = true.







End Shapes.












(** ** Whole numbers through the currency parser *)







(** ** Separators *)



(** ** Sign of a parsed amount *)

Lemma countChar_trimStart (c : ascii) (s : string) :
  (JS.countChar c (JS.trimStart s) <= JS.countChar c s)%nat.
Proof.
  induction s as [|x s IH]; cbn; [lia|].
  destruct (JS.isWhitespace x); cbn; lia.
Qed.

Lemma countChar_trimEnd (c : ascii) (s : string) :
  (JS.countChar c (JS.trimEnd s) <= JS.countChar c s)%nat.
Proof.
  induction s as [|x s IH]; cbn; [lia|].
  destruct (JS.isWhitespace x && JS.isEmpty (JS.trimEnd s)); cbn; lia.
Qed.

Lemma countChar_trim (c : ascii) (s : string) :
  (JS.countChar c (JS.trim s) <= JS.countChar c s)%nat.
Proof.
  unfold JS.trim.
  pose proof (countChar_trimEnd c (JS.trimStart s)).
  pose proof (countChar_trimStart c s). lia.
Qed.

Lemma countChar_keepChars (keep : ascii -> bool) (c : ascii) (s : string) :
  (JS.countChar c (JS.keepChars keep s) <= JS.countChar c s)%nat.
Proof.
  induction s as [|x s IH]; cbn; [lia|].
  destruct (keep x); cbn; lia.
Qed.

Lemma countChar_keepChars_dropped (keep : ascii -> bool) (c : ascii)
  (s : string) :
  keep c = false -> JS.countChar c (JS.keepChars keep s) = 0%nat.
Proof.
  intros Hk. induction s as [|x s IH]; [reflexivity|]. cbn.
  destruct (keep x) eqn:Ex; [|exact IH]. cbn.
  destruct (Ascii.eqb_spec x c) as [->|]; [congruence | exact IH].
Qed.

Lemma countChar_dropFirst (c : ascii) (s : string) :
  (JS.countChar c (JS.dropFirst s) <= JS.countChar c s)%nat.
Proof. destruct s; cbn; lia. Qed.

Lemma countChar_dropChars (c : ascii) (n : nat) (s : string) :
  (JS.countChar c (JS.dropChars n s) <= JS.countChar c s)%nat.
Proof.
  revert s. induction n as [|n IH]; intros s; [cbn; lia|].
  destruct s as [|x s]; cbn; [lia|]. specialize (IH s). lia.
Qed.

Lemma countChar_stripCurrencyMarker (c : ascii) (s : string) :
  (JS.countChar c (TransactionManager.stripCurrencyMarker s)
   <= JS.countChar c s)%nat.
Proof.
  unfold TransactionManager.stripCurrencyMarker.
  assert (Hstep : forall r,
            (JS.countChar c
               match r with
               | EmptyString => EmptyString
               | String x r' => if JS.isWhitespace x then r' else String x r'
               end <= JS.countChar c r)%nat).
  { intros [|x r]; cbn; [lia|]. destruct (JS.isWhitespace x); cbn; lia. }
  destruct (prefix "rp" (JS.toLowerCase s)).
  - destruct (JS.startsWithChar "." (JS.dropChars 2 s)).
    + specialize (Hstep (JS.dropFirst (JS.dropChars 2 s))).
      pose proof (countChar_dropFirst c (JS.dropChars 2 s)).
      pose proof (countChar_dropChars c 2 s).
      etransitivity; [exact Hstep | lia].
    + specialize (Hstep (JS.dropChars 2 s)).
      pose proof (countChar_dropChars c 2 s).
      etransitivity; [exact Hstep | lia].
  - destruct (prefix "idr" (JS.toLowerCase s) || prefix "usd" (JS.toLowerCase s)).
    + specialize (Hstep (JS.dropChars 3 s)).
      pose proof (countChar_dropChars c 3 s).
      etransitivity; [exact Hstep | lia].
    + lia.
Qed.

Lemma startsWithChar_count (c : ascii) (s : string) :
  JS.startsWithChar c s = true -> JS.countChar c s <> 0%nat.
Proof. destruct s as [|x s]; cbn; [discriminate|]. intros ->. lia. Qed.

Lemma digitsValue_nonneg (s : string) :
  forall acc, (0 <= acc)%Z -> (0 <= JS.digitsValue acc s)%Z.
Proof.
  induction s as [|c s IH]; intros acc H; cbn [JS.digitsValue]; [exact H|].
  apply IH. lia.
Qed.

Lemma parseUnsigned_nonneg (s : string) (v : Q) :
  JS.parseUnsigned s = Some v -> 0 <= v.
Proof.
  assert (Hd : forall a b, 0 <= JS.decimalValue a b).
  { intros a b. unfold JS.decimalValue, Qle. cbn.
    pose proof (digitsValue_nonneg (a ++ b) 0 ltac:(lia)). lia. }
  unfold JS.parseUnsigned.
  destruct (JS.spanDigits s) as [ip r1].
  destruct r1 as [|c r2].
  - destruct (JS.isEmpty ip); [discriminate|]. intros [= <-]. apply Hd.
  - destruct (Ascii.eqb_spec c ".") as [->|Hne].
    + destruct (JS.spanDigits r2) as [fp rest].
      destruct (JS.isEmpty ip && JS.isEmpty fp); [discriminate|].
      intros [= <-]. apply Hd.
    + assert (E : forall X Y : option Q,
                match c with
                | "."%char => X
                | _ => Y
                end = Y).
      { intros X Y.
        destruct c as [[] [] [] [] [] [] [] []]; try reflexivity.
        now contradiction Hne. }
      rewrite E. destruct (JS.isEmpty ip); [discriminate|].
      intros [= <-]. apply Hd.
Qed.

Lemma parseFloat_nonneg (s : string) (v : Q) :
  JS.countChar "-" s = 0%nat -> JS.parseFloat s = Some v -> 0 <= v.
Proof.
  intros Hs. unfold JS.parseFloat.
  pose proof (countChar_trimStart "-" s) as Ht.
  destruct (JS.trimStart s) as [|c r]; [apply parseUnsigned_nonneg|].
  destruct (Ascii.eqb_spec c "-") as [->|Hne].
  - cbn in Ht. lia.
  - destruct c as [[] [] [] [] [] [] [] []];
      try apply parseUnsigned_nonneg.
    now contradiction Hne.
Qed.

(** X18. A text with neither a minus sign nor an opening parenthesis never
    parses to a negative amount. *)
Theorem parseCurrency_nonnegative :
  forall raw : string,
    JS.countChar "-" raw = 0%nat -> JS.countChar "(" raw = 0%nat ->
    0 <= TransactionManager.parseCurrency raw.
Proof.
  intros raw Hminus Hparen. unfold TransactionManager.parseCurrency.
  destruct (JS.isEmpty raw); [apply Qle_refl|].
  unfold TransactionManager.currencyDigits.
  assert (Hpar : JS.startsWithChar "(" (JS.trim raw) = false).
  { destruct (JS.startsWithChar "(" (JS.trim raw)) eqn:E; [|reflexivity].
    apply startsWithChar_count in E.
    pose proof (countChar_trim "(" raw). lia. }
  rewrite Hpar. cbn [andb orb].
  set (clean3 := JS.keepChars (fun c => negb (JS.isWhitespace c))
                   (TransactionManager.stripCurrencyMarker (JS.trim raw))).
  assert (Hneg : JS.startsWithChar "-" clean3 = false).
  { destruct (JS.startsWithChar "-" clean3) eqn:E; [|reflexivity].
    apply startsWithChar_count in E. subst clean3.
    pose proof (countChar_keepChars (fun c => negb (JS.isWhitespace c)) "-"
                  (TransactionManager.stripCurrencyMarker (JS.trim raw))).
    pose proof (countChar_stripCurrencyMarker "-" (JS.trim raw)).
    pose proof (countChar_trim "-" raw). lia. }
  rewrite Hneg.
  destruct (JS.parseFloat _) as [v|] eqn:Ev; [|apply Qle_refl].
  apply parseFloat_nonneg in Ev; [exact Ev|].
  now apply countChar_keepChars_dropped.
Qed.

Lemma parseCurrency_nonnegative_witness :
  0 <= TransactionManager.parseCurrency "Rp 1.250,50 )".
Proof.
  apply (parseCurrency_nonnegative "Rp 1.250,50 )"); reflexivity.
Defined.

(** ** The line splitter *)

Lemma split_length (sep : ascii) (s : string) :
  List.length (JS.split sep s) = S (JS.countChar sep s).
Proof.
  induction s as [|c s IH]; [reflexivity|]. cbn.
  destruct (Ascii.eqb c sep); cbn; [now rewrite IH|].
  destruct (JS.split sep s) as [|h t]; [discriminate IH|]. exact IH.
Qed.

(** Outside quotes and with no quote ahead, the loop is the plain split. *)
Lemma splitLoop_plain (delimiter : ascii) (line : string) :
  JS.countChar JS.quoteChar line = 0%nat ->
  forall (current : string) (result : list string),
    TransactionManager.splitLoop delimiter line current false result
    = (result
       ++ match JS.split delimiter line with
          | h :: t => JS.trim (current ++ h) :: map JS.trim t
          | [] => []
          end)%list.
Proof.
  induction line as [|ch r IH]; intros Hq current result.
  - cbn. now rewrite append_nil_r.
  - cbn [JS.countChar] in Hq.
    destruct (Ascii.eqb ch JS.quoteChar) eqn:Eq; [discriminate|].
    cbn [Nat.add] in Hq.
    cbn [TransactionManager.splitLoop JS.split]. rewrite Eq.
    destruct (Ascii.eqb ch delimiter); cbn [andb negb].
    + rewrite (IH Hq). rewrite <- app_assoc. cbn [app append].
      rewrite append_nil_r.
      pose proof (split_not_nil delimiter r) as Hne.
      destruct (JS.split delimiter r) as [|h t]; [contradiction|].
      reflexivity.
    + rewrite (IH Hq).
      pose proof (split_not_nil delimiter r) as Hne.
      destruct (JS.split delimiter r) as [|h t]; [contradiction|].
      now rewrite append_assoc.
Qed.

(** X19. On a line without a double quote the quote-aware splitter is the
    plain split followed by trimming, and it returns one field more than
    the line holds delimiters. *)
Theorem splitCSVLine_without_quotes :
  forall (line : string) (delimiter : ascii),
    JS.countChar JS.quoteChar line = 0%nat ->
    TransactionManager.splitCSVLine line delimiter
    = map JS.trim (JS.split delimiter line)
    /\ List.length (TransactionManager.splitCSVLine line delimiter)
       = S (JS.countChar delimiter line).
Proof.
  intros line delimiter Hq.
  assert (E : TransactionManager.splitCSVLine line delimiter
              = map JS.trim (JS.split delimiter line)).
  { unfold TransactionManager.splitCSVLine.
    rewrite (splitLoop_plain delimiter line Hq). cbn [app append].
    pose proof (split_not_nil delimiter line) as Hne.
    destruct (JS.split delimiter line) as [|h t]; [contradiction|].
    reflexivity. }
  split; [exact E|]. now rewrite E, length_map, split_length.
Qed.

Lemma splitCSVLine_without_quotes_witness :
  TransactionManager.splitCSVLine "2024-06-01; INV-1 ;Rental;;450000" ";"
  = map JS.trim (JS.split ";" "2024-06-01; INV-1 ;Rental;;450000").
Proof.
  apply (proj1 (splitCSVLine_without_quotes
                  "2024-06-01; INV-1 ;Rental;;450000" ";" eq_refl)).
Defined.

Lemma trimEnd_idempotent (s : string) :
  JS.trimEnd (JS.trimEnd s) = JS.trimEnd s.
Proof.
  induction s as [|c s IH]; [reflexivity|]. cbn [JS.trimEnd].
  destruct (JS.isWhitespace c && JS.isEmpty (JS.trimEnd s)) eqn:E;
    [reflexivity|].
  cbn [JS.trimEnd]. now rewrite IH, E.
Qed.

Lemma trimStart_trimmed (s : string) :
  JS.trimStart (JS.trimEnd (JS.trimStart s)) = JS.trimEnd (JS.trimStart s).
Proof.
  induction s as [|c s IH]; [reflexivity|]. cbn [JS.trimStart].
  destruct (JS.isWhitespace c) eqn:E; [exact IH|].
  cbn [JS.trimEnd]. rewrite E. cbn [andb JS.trimStart]. now rewrite E.
Qed.

Lemma trim_idempotent (s : string) : JS.trim (JS.trim s) = JS.trim s.
Proof.
  unfold JS.trim. now rewrite trimStart_trimmed, trimEnd_idempotent.
Qed.

Lemma splitLoop_fields (P : string -> Prop) (delimiter : ascii) :
  (forall s, P (JS.trim s)) ->
  forall (line current : string) (inQuotes : bool) (result : list string),
    Forall P result ->
    Forall P (TransactionManager.splitLoop delimiter line current inQuotes result)
    /\ TransactionManager.splitLoop delimiter line current inQuotes result <> [].
Proof.
  intros HP line. remember (String.length line) as n eqn:Hn.
  revert line Hn. induction n as [n IH] using lt_wf_ind.
  intros line Hn current inQuotes result Hres.
  destruct line as [|ch rest]; cbn [TransactionManager.splitLoop].
  - split.
    + apply Forall_app. split; [exact Hres|]. constructor; [apply HP|constructor].
    + destruct result; discriminate.
  - cbn in Hn.
    assert (Hrest : forall cur q res, Forall P res ->
              Forall P (TransactionManager.splitLoop delimiter rest cur q res)
              /\ TransactionManager.splitLoop delimiter rest cur q res <> []).
    { intros. apply (IH (String.length rest)); [lia | reflexivity | assumption]. }
    destruct (Ascii.eqb ch JS.quoteChar).
    + destruct rest as [|next rest']; [now apply Hrest|].
      destruct (inQuotes && Ascii.eqb next JS.quoteChar); [|now apply Hrest].
      apply (IH (String.length rest')); [cbn in Hn |- *; lia | reflexivity | assumption].
    + destruct (Ascii.eqb ch delimiter && negb inQuotes); [|now apply Hrest].
      apply Hrest. apply Forall_app. split; [exact Hres|].
      constructor; [apply HP | constructor].
Qed.

(** X20. The splitter always returns at least one field, and every field
    it returns is trimmed: trimming it again changes nothing. *)
Theorem splitCSVLine_fields_trimmed :
  forall (line : string) (delimiter : ascii),
    TransactionManager.splitCSVLine line delimiter <> []
    /\ (forall field,
          In field (TransactionManager.splitCSVLine line delimiter) ->
          JS.trim field = field).
Proof.
  intros line delimiter. unfold TransactionManager.splitCSVLine.
  destruct (splitLoop_fields (fun f => JS.trim f = f) delimiter
              trim_idempotent line "" false [] (Forall_nil _)) as [Hall Hne].
  split; [exact Hne|]. now apply Forall_forall.
Qed.

Section SplitterSteps.

Variable delimiter : ascii.

Lemma loop_quoted_run (x rest current : string) (result : list string) :
  JS.countChar JS.quoteChar x = 0%nat ->
  TransactionManager.splitLoop delimiter (x ++ rest) current true result = TransactionManager.splitLoop delimiter rest (current ++ x) true result.
Proof.
  revert current. induction x as [|ch x IH]; intros current Hq.
  - cbn. now rewrite append_nil_r.
  - cbn [JS.countChar] in Hq.
    destruct (Ascii.eqb ch JS.quoteChar) eqn:Eq; [discriminate|].
    cbn [append TransactionManager.splitLoop]. rewrite Eq.
    rewrite andb_false_r. rewrite (IH _ Hq). now rewrite append_assoc.
Qed.

Lemma loop_plain_run (a rest current : string) (result : list string) :
  JS.countChar JS.quoteChar a = 0%nat ->
  JS.countChar delimiter a = 0%nat ->
  TransactionManager.splitLoop delimiter (a ++ rest) current false result
  = TransactionManager.splitLoop delimiter rest (current ++ a) false result.
Proof.
  revert current. induction a as [|ch a IH]; intros current Hq Hd.
  - cbn. now rewrite append_nil_r.
  - cbn [JS.countChar] in Hq, Hd.
    destruct (Ascii.eqb ch JS.quoteChar) eqn:Eq; [discriminate|].
    destruct (Ascii.eqb ch delimiter) eqn:Ed; [discriminate|].
    cbn [append TransactionManager.splitLoop]. rewrite Eq, Ed.
    cbn [andb]. rewrite (IH _ Hq Hd). now rewrite append_assoc.
Qed.

Lemma loop_delimiter (rest current : string) (result : list string) :
  delimiter <> JS.quoteChar ->
  TransactionManager.splitLoop delimiter (String delimiter rest) current false result
  = TransactionManager.splitLoop delimiter rest "" false (result ++ [JS.trim current])%list.
Proof.
  intros Hne. cbn [TransactionManager.splitLoop].
  rewrite (proj2 (Ascii.eqb_neq _ _) Hne), Ascii.eqb_refl. reflexivity.
Qed.

Lemma loop_open (rest current : string) (result : list string) :
  TransactionManager.splitLoop delimiter (String JS.quoteChar rest) current false result
  = TransactionManager.splitLoop delimiter rest current true result.
Proof.
  cbn [TransactionManager.splitLoop]. rewrite Ascii.eqb_refl.
  now destruct rest.
Qed.

Lemma loop_close (rest current : string) (result : list string) :
  JS.startsWithChar JS.quoteChar rest = false ->
  TransactionManager.splitLoop delimiter (String JS.quoteChar rest) current true result
  = TransactionManager.splitLoop delimiter rest current false result.
Proof.
  intros H. cbn [TransactionManager.splitLoop]. rewrite Ascii.eqb_refl.
  destruct rest as [|next rest']; [reflexivity|].
  cbn [JS.startsWithChar] in H. now rewrite H.
Qed.

Lemma loop_escape (rest current : string) (result : list string) :
  TransactionManager.splitLoop delimiter (String JS.quoteChar (String JS.quoteChar rest)) current true result
  = TransactionManager.splitLoop delimiter rest (current ++ String JS.quoteChar "") true result.
Proof.
  cbn [TransactionManager.splitLoop]. now rewrite Ascii.eqb_refl.
Qed.

End SplitterSteps.

(** X21. Quoting: with a delimiter other than the double quote, a field
    written between double quotes is returned without them and may contain
    the delimiter, the fields around it being split as usual; inside
    quotes a doubled quote stands for one quote character. *)
Theorem splitCSVLine_quoted_fields :
  forall (delimiter : ascii) (a x b x1 x2 : string),
    delimiter <> JS.quoteChar ->
    JS.countChar JS.quoteChar a = 0%nat -> JS.countChar delimiter a = 0%nat ->
    JS.countChar JS.quoteChar b = 0%nat -> JS.countChar delimiter b = 0%nat ->
    JS.countChar JS.quoteChar x = 0%nat ->
    JS.countChar JS.quoteChar x1 = 0%nat ->
    JS.countChar JS.quoteChar x2 = 0%nat ->
    TransactionManager.splitCSVLine
      (a ++ String delimiter
              (String JS.quoteChar
                 (x ++ String JS.quoteChar (String delimiter b))))
      delimiter
    = [JS.trim a; JS.trim x; JS.trim b]
    /\ TransactionManager.splitCSVLine
         (String JS.quoteChar
            (x1 ++ String JS.quoteChar
                     (String JS.quoteChar (x2 ++ String JS.quoteChar ""))))
         delimiter
       = [JS.trim (x1 ++ String JS.quoteChar x2)].
Proof.
  intros delimiter a x b x1 x2 Hne Haq Had Hbq Hbd Hxq Hx1 Hx2.
  unfold TransactionManager.splitCSVLine. split.
  - rewrite (loop_plain_run delimiter a _ "" [] Haq Had).
    rewrite (loop_delimiter delimiter _ _ _ Hne).
    rewrite loop_open, (loop_quoted_run delimiter x _ "" _ Hxq).
    rewrite loop_close
      by (cbn; now apply Ascii.eqb_neq).
    rewrite (loop_delimiter delimiter _ _ _ Hne).
    rewrite <- (append_nil_r b) at 1.
    rewrite (loop_plain_run delimiter b "" "" _ Hbq Hbd).
    reflexivity.
  - rewrite loop_open, (loop_quoted_run delimiter x1 _ "" _ Hx1).
    rewrite loop_escape, (loop_quoted_run delimiter x2 _ _ _ Hx2).
    rewrite loop_close by reflexivity.
    cbn. now rewrite append_assoc.
Qed.

Lemma splitCSVLine_quoted_fields_witness :
  TransactionManager.splitCSVLine
    ("PO-1" ++ String ","
       (String JS.quoteChar
          ("Tires, front" ++ String JS.quoteChar (String "," "2500000"))))
    ","
  = [JS.trim "PO-1"; JS.trim "Tires, front"; JS.trim "2500000"].
Proof.
  apply (proj1 (splitCSVLine_quoted_fields "," "PO-1" "Tires, front" "2500000"
                  "" "" ltac:(discriminate) eq_refl eq_refl eq_refl eq_refl
                  eq_refl eq_refl eq_refl)).
Defined.

(** ** Invariants of the journal import *)

Lemma ownProperty_None (ref : string) (g : AccountingView.Groups) :
  AccountingView.ownProperty ref g = None <-> ~ In ref (map fst g).
Proof.
  induction g as [|[k e] g IH]; cbn.
  - tauto.
  - destruct (String.eqb_spec k ref) as [->|Hne].
    + split; [discriminate | intros H; exfalso; apply H; now left].
    + rewrite IH. split.
      * intros H [E|Hin]; [congruence | contradiction].
      * intros H Hin. apply H. now right.
Qed.

Lemma ownProperty_Some (ref : string) (g : AccountingView.Groups)
  (e : JournalEntry.t) :
  AccountingView.ownProperty ref g = Some e -> In (ref, e) g.
Proof.
  induction g as [|[k e'] g IH]; cbn; [discriminate|].
  destruct (String.eqb_spec k ref) as [->|Hne].
  - intros [= ->]. now left.
  - intros H. right. now apply IH.
Qed.

Lemma pushLine_keys (ref : string) (line : JournalLine.t)
  (g : AccountingView.Groups) :
  map fst (AccountingView.pushLine ref line g) = map fst g.
Proof.
  induction g as [|[k e] g IH]; [reflexivity|]. cbn.
  destruct (String.eqb k ref); cbn; now rewrite ?IH.
Qed.

Lemma pushLine_fresh (ref : string) (line : JournalLine.t)
  (g : AccountingView.Groups) (e : JournalEntry.t) :
  AccountingView.ownProperty ref g = None ->
  AccountingView.pushLine ref line (g ++ [(ref, e)])%list
  = (g ++ [(ref, AccountingView.pushLineTo line e)])%list.
Proof.
  induction g as [|[k e'] g IH]; cbn.
  - intros _. now rewrite String.eqb_refl.
  - destruct (String.eqb k ref); [discriminate|].
    intros H. now rewrite (IH H).
Qed.

Lemma pushLine_Forall (Q : string * JournalEntry.t -> Prop) (ref : string)
  (line : JournalLine.t) (g : AccountingView.Groups) :
  (forall e, Q (ref, e) -> Q (ref, AccountingView.pushLineTo line e)) ->
  Forall Q g -> Forall Q (AccountingView.pushLine ref line g).
Proof.
  intros HQ. induction 1 as [|[k e] g Hke Hg IH]; cbn; [constructor|].
  destruct (String.eqb_spec k ref) as [->|Hne].
  - constructor; [now apply HQ | assumption].
  - constructor; assumption.
Qed.

Lemma pushLine_lines (ref : string) (line : JournalLine.t)
  (g : AccountingView.Groups) (e : JournalEntry.t) :
  AccountingView.ownProperty ref g = Some e ->
  Permutation (line :: groupLines g)
    (groupLines (AccountingView.pushLine ref line g)).
Proof.
  revert e. induction g as [|[k e'] g IH]; intros e; cbn; [discriminate|].
  destruct (String.eqb k ref).
  - intros _. unfold groupLines. cbn.
    rewrite <- app_assoc. cbn. apply Permutation_middle.
  - intros H. unfold groupLines. cbn.
    eapply perm_trans; [apply Permutation_middle|].
    apply Permutation_app_head. exact (IH e H).
Qed.

Section JournalImportFacts.

Variable randomSuffix : nat -> string.

Lemma importRow_skip (i : nat) (line : string) (g : AccountingView.Groups) :
  acceptedRow line = false ->
  AccountingView.importRow randomSuffix i line g = Some g.
Proof.
  unfold acceptedRow, journalCells, AccountingView.importRow.
  destruct (JS.isEmpty (JS.trim line)); [reflexivity|]. cbn [negb andb].
  destruct (map JS.trim (JS.split "," (JS.trim line)))
    as [|c0 [|c1 [|c2 [|c3 [|c4 rest]]]]]; cbn; try reflexivity.
  discriminate.
Qed.

Lemma importRow_accept (i : nat) (line : string) (g : AccountingView.Groups) :
  acceptedRow line = true ->
  exists (date : string) (l : JournalLine.t),
    importedLineOk l
    /\ AccountingView.importRow randomSuffix i line g
       = match AccountingView.ownProperty (rowRef line) g with
         | Some _ => Some (AccountingView.pushLine (rowRef line) l g)
         | None =>
             if AccountingView.inherited (rowRef line) then None
             else
               Some (AccountingView.pushLine (rowRef line) l
                       (g ++ [(rowRef line,
                               JournalEntry.mk
                                 ("CSV-" ++ rowRef line ++ "-" ++ randomSuffix i)
                                 date (rowRef line) "Imported Transaction" [])])%list)
         end.
Proof.
  unfold acceptedRow, rowRef, journalCells, AccountingView.importRow.
  destruct (JS.isEmpty (JS.trim line)); [discriminate|]. cbn [negb andb].
  destruct (map JS.trim (JS.split "," (JS.trim line)))
    as [|c0 [|c1 [|c2 [|c3 [|c4 rest]]]]]; cbn [List.length Nat.leb];
    try discriminate.
  intros _. cbn [nth].
  exists c0,
    (JournalLine.mk
       (AccountingView.mapAccount (JS.removeAll JS.quoteChar c2))
       (JS.removeAll JS.quoteChar c2)
       (AccountingView.cleanNumber c3) (AccountingView.cleanNumber c4)).
  split; [|reflexivity].
  split; [reflexivity|]. cbn [JournalLine.accountName].
  apply countChar_keepChars_dropped. now rewrite Ascii.eqb_refl.
Qed.

Lemma pushLineTo_ok (k : string) (l : JournalLine.t) (e : JournalEntry.t) :
  importedLineOk l ->
  groupOk randomSuffix k e ->
  groupOk randomSuffix k (AccountingView.pushLineTo l e).
Proof.
  intros Hl (H1 & H2 & H3 & H4 & H5). repeat split; try assumption.
  cbn. apply Forall_app. split; [exact H5 | now constructor].
Qed.

Lemma importRow_invariant (i : nat) (line : string)
  (g g' : AccountingView.Groups) :
  groupsOk randomSuffix g -> allHaveLines g ->
  AccountingView.importRow randomSuffix i line g = Some g' ->
  groupsOk randomSuffix g' /\ allHaveLines g'
  /\ List.length (groupLines g')
     = (List.length (groupLines g) + if acceptedRow line then 1 else 0)%nat.
Proof.
  intros [Hnd Hok] Hlines.
  destruct (acceptedRow line) eqn:Ha.
  2: { rewrite (importRow_skip i line g Ha). intros [= <-].
       repeat split; try assumption. lia. }
  destruct (importRow_accept i line g Ha) as (date & l & Hl & ->).
  destruct (AccountingView.ownProperty (rowRef line) g) as [e|] eqn:Eown.
  - intros [= <-]. repeat split.
    + now rewrite pushLine_keys.
    + apply pushLine_Forall; [|exact Hok].
      intros e'. cbn [fst snd]. now apply pushLineTo_ok.
    + apply pushLine_Forall; [|exact Hlines].
      intros e' _. cbn. now destruct (JournalEntry.lines e').
    + rewrite <- (Permutation_length (pushLine_lines _ l g e Eown)). cbn. lia.
  - destruct (AccountingView.inherited (rowRef line)) eqn:Einh; [discriminate|].
    intros [= <-]. rewrite (pushLine_fresh _ _ _ _ Eown). repeat split.
    + rewrite map_app. cbn [map fst].
      apply (Permutation_NoDup (Permutation_cons_append _ _)).
      constructor; [now apply ownProperty_None | exact Hnd].
    + apply Forall_app. split; [exact Hok|].
      constructor; [|constructor]. cbn [fst snd].
      repeat split; try assumption; try reflexivity.
      * now exists i.
      * cbn. now constructor.
    + apply Forall_app. split; [exact Hlines|].
      constructor; [|constructor]. cbn. discriminate.
    + unfold groupLines. rewrite flat_map_app, length_app. reflexivity.
Qed.

Lemma importRows_invariant (lines : list string) :
  forall (i : nat) (g g' : AccountingView.Groups),
    groupsOk randomSuffix g -> allHaveLines g ->
    AccountingView.importRows randomSuffix i lines g = Some g' ->
    groupsOk randomSuffix g' /\ allHaveLines g'
    /\ List.length (groupLines g')
       = (List.length (groupLines g) + countAccepted lines)%nat.
Proof.
  induction lines as [|line rest IH]; intros i g g' Hok Hl; cbn.
  - intros [= <-]. split; [exact Hok|]. split; [exact Hl|].
    unfold countAccepted. cbn. lia.
  - destruct (AccountingView.importRow randomSuffix i line g) as [g1|] eqn:E;
      [|discriminate].
    destruct (importRow_invariant i line g g1 Hok Hl E) as (Hok1 & Hl1 & Hn1).
    intros H. destruct (IH (S i) g1 g' Hok1 Hl1 H) as (Hok' & Hl' & Hn').
    split; [exact Hok'|]. split; [exact Hl'|].
    rewrite Hn', Hn1. unfold countAccepted. cbn [filter].
    destruct (acceptedRow line); cbn; lia.
Qed.

Lemma importRows_abort (lines : list string) (row : string) :
  In row lines -> acceptedRow row = true ->
  AccountingView.inherited (rowRef row) = true ->
  forall (i : nat) (g : AccountingView.Groups),
    groupsOk randomSuffix g -> allHaveLines g ->
    AccountingView.importRows randomSuffix i lines g = None.
Proof.
  intros Hin Ha Hinh.
  induction lines as [|line rest IH]; intros i g Hok Hl; [contradiction|].
  cbn. destruct (AccountingView.importRow randomSuffix i line g) as [g1|] eqn:E;
    [|reflexivity].
  destruct (importRow_invariant i line g g1 Hok Hl E) as (Hok1 & Hl1 & _).
  destruct Hin as [<- | Hin]; [|now apply IH].
  exfalso. destruct (importRow_accept i line g Ha) as (date & l & _ & E').
  rewrite E' in E.
  destruct (AccountingView.ownProperty (rowRef line) g) as [e|] eqn:Eown.
  - apply ownProperty_Some in Eown. destruct Hok as [_ Hall].
    rewrite Forall_forall in Hall. destruct (Hall _ Eown) as (_ & _ & _ & Hk & _).
    cbn [fst] in Hk. congruence.
  - rewrite Hinh in E. discriminate.
Qed.

End JournalImportFacts.

Lemma filter_split_perm {A : Type} (p : A -> bool) (l : list A) :
  Permutation l (filter p l ++ filter (fun x => negb (p x)) l).
Proof.
  induction l as [|x l IH]; [constructor|]. cbn.
  destruct (p x); cbn.
  - now apply perm_skip.
  - eapply perm_trans; [apply perm_skip, IH | apply Permutation_middle].
Qed.

Lemma insertIndexed_perm (x : string * JournalEntry.t)
  (g : AccountingView.Groups) :
  Permutation (x :: g) (AccountingView.insertIndexed x g).
Proof.
  induction g as [|y g IH]; cbn; [apply Permutation_refl|].
  destruct (_ <? _)%Z.
  - eapply perm_trans; [apply perm_swap | now apply perm_skip].
  - apply Permutation_refl.
Qed.

Lemma objectValues_perm (g : AccountingView.Groups) :
  Permutation (map snd g) (AccountingView.objectValues g).
Proof.
  unfold AccountingView.objectValues. apply Permutation_map.
  eapply perm_trans; [apply (filter_split_perm (fun p => AccountingView.isArrayIndex (fst p)))|].
  apply Permutation_app_tail.
  induction (filter _ g) as [|x l IH]; cbn; [constructor|].
  eapply perm_trans; [apply perm_skip, IH | apply insertIndexed_perm].
Qed.

(** X22. A successful journal import returns one entry per reference: the
    entries have pairwise distinct references; each is described
    "Imported Transaction", has an id made of "CSV-", its reference and a
    random suffix, and holds at least one line; and the lines of all
    entries together are as many as the data lines of the file that are not
    blank and have at least five cells. *)
Theorem journal_import_groups :
  forall (randomSuffix : nat -> string) (csvText : string)
    (entries : list JournalEntry.t),
    AccountingView.parseCSV randomSuffix csvText = Some entries ->
    NoDup (map JournalEntry.reference entries)
    /\ (forall e, In e entries ->
          JournalEntry.description e = "Imported Transaction"
          /\ JournalEntry.lines e <> []
          /\ exists i,
               JournalEntry.id e
               = "CSV-" ++ JournalEntry.reference e ++ "-" ++ randomSuffix i)
    /\ List.length (allLines entries)
       = countAccepted (tl (JS.split newline csvText)).
Proof.
  intros randomSuffix csvText entries. unfold AccountingView.parseCSV.
  fold newline.
  destruct (AccountingView.importRows randomSuffix 1
              (tl (JS.split newline csvText)) []) as [g|] eqn:E;
    [|discriminate].
  cbn [option_map]. intros [= <-].
  destruct (importRows_invariant randomSuffix _ 1 [] g
              (conj (NoDup_nil _) (Forall_nil _)) (Forall_nil _) E)
    as ([Hnd Hok] & Hl & Hn).
  pose proof (objectValues_perm g) as Hp.
  unfold allHaveLines in Hl. rewrite Forall_forall in Hok, Hl.
  assert (Hrefs : map JournalEntry.reference (map snd g) = map fst g).
  { rewrite map_map. apply map_ext_in. intros p Hin.
    exact (proj1 (Hok p Hin)). }
  split; [|split].
  - apply (Permutation_NoDup (Permutation_map JournalEntry.reference Hp)).
    now rewrite Hrefs.
  - intros e He.
    apply (Permutation_in _ (Permutation_sym Hp)) in He.
    apply in_map_iff in He as (p & <- & Hin).
    destruct (Hok p Hin) as (Hr & Hd & (i & Hi) & _ & _).
    split; [exact Hd|]. split; [exact (Hl p Hin)|].
    exists i. now rewrite Hr.
  - unfold allLines.
    rewrite <- (Permutation_length (Permutation_flat_map JournalEntry.lines Hp)).
    rewrite flat_map_concat_map, map_map, <- flat_map_concat_map.
    exact Hn.
Qed.

Lemma journal_import_groups_witness :
  NoDup (map JournalEntry.reference
           [ JournalEntry.mk "CSV-R1-k3x9a" "2024-06-07" "R1"
               "Imported Transaction"
               [ JournalLine.mk "4000" "Sales Revenue" 0 100;
                 JournalLine.mk "1002" "Bank BCA" 100 0 ] ]).
Proof.
  apply (journal_import_groups (fun _ => "k3x9a") journalCsv
           [ JournalEntry.mk "CSV-R1-k3x9a" "2024-06-07" "R1"
               "Imported Transaction"
               [ JournalLine.mk "4000" "Sales Revenue" 0 100;
                 JournalLine.mk "1002" "Bank BCA" 100 0 ] ]).
  vm_compute. reflexivity.
Defined.

(** X23. If any data line that is not blank and has at least five cells
    carries, as its reference, the name of a property every object
    inherits ("constructor", "toString", "__proto__", ...), the whole journal
    import fails and the uploaded entries stay as they were. *)
Theorem journal_import_aborts_on_inherited_reference :
  forall (randomSuffix : nat -> string) (csvText row : string)
    (uploadedEntries : list JournalEntry.t),
    In row (tl (JS.split newline csvText)) ->
    acceptedRow row = true ->
    AccountingView.inherited (rowRef row) = true ->
    AccountingView.parseCSV randomSuffix csvText = None
    /\ AccountingView.handleFileUpload randomSuffix csvText uploadedEntries
       = uploadedEntries.
Proof.
  intros randomSuffix csvText row uploadedEntries Hin Ha Hinh.
  assert (E : AccountingView.parseCSV randomSuffix csvText = None).
  { unfold AccountingView.parseCSV. fold newline.
    now rewrite (importRows_abort randomSuffix _ row Hin Ha Hinh 1 []
                   (conj (NoDup_nil _) (Forall_nil _)) (Forall_nil _)). }
  split; [exact E|]. unfold AccountingView.handleFileUpload. now rewrite E.
Qed.

Lemma journal_import_aborts_on_inherited_reference_witness :
  AccountingView.handleFileUpload (fun _ => "k3x9a")
    ("Date,Ref,Description,Debit,Credit" ++ String newline
     "2024-06-07,R1,Sales Revenue,0,100" ++ String newline
     "2024-06-08,toString,Bank BCA,100,0")
    [openingEntry]
  = [openingEntry].
Proof.
  apply (proj2 (journal_import_aborts_on_inherited_reference
                  (fun _ => "k3x9a")
                  ("Date,Ref,Description,Debit,Credit" ++ String newline
                   "2024-06-07,R1,Sales Revenue,0,100" ++ String newline
                   "2024-06-08,toString,Bank BCA,100,0")
                  "2024-06-08,toString,Bank BCA,100,0" [openingEntry]
                  ltac:(vm_compute; right; left; reflexivity)
                  eq_refl eq_refl)).
Defined.

Lemma mapAccount_codes (desc : string) :
  In (AccountingView.mapAccount desc)
     ["4000"; "1002"; "1001"; "5001"; "5002"; "9999"].
Proof.
  unfold AccountingView.mapAccount.
  repeat match goal with
         | |- context [if ?b then _ else _] => destruct b
         end; in_list.
Qed.

(** X24. Every line of an imported journal entry carries the account code
    that the keyword table assigns to its own account name, hence one of
    4000, 1002, 1001, 5001, 5002 and 9999, and its account name contains no
    double quote. *)
Theorem journal_import_lines :
  forall (randomSuffix : nat -> string) (csvText : string)
    (entries : list JournalEntry.t) (e : JournalEntry.t) (l : JournalLine.t),
    AccountingView.parseCSV randomSuffix csvText = Some entries ->
    In e entries -> In l (JournalEntry.lines e) ->
    JournalLine.accountId l
    = AccountingView.mapAccount (JournalLine.accountName l)
    /\ In (JournalLine.accountId l)
          ["4000"; "1002"; "1001"; "5001"; "5002"; "9999"]
    /\ JS.countChar JS.quoteChar (JournalLine.accountName l) = 0%nat.
Proof.
  intros randomSuffix csvText entries e l. unfold AccountingView.parseCSV.
  fold newline.
  destruct (AccountingView.importRows randomSuffix 1
              (tl (JS.split newline csvText)) []) as [g|] eqn:E;
    [|discriminate].
  cbn [option_map]. intros [= <-] He Hl.
  destruct (importRows_invariant randomSuffix _ 1 [] g
              (conj (NoDup_nil _) (Forall_nil _)) (Forall_nil _) E)
    as ([_ Hok] & _ & _).
  apply (Permutation_in _ (Permutation_sym (objectValues_perm g))) in He.
  apply in_map_iff in He as (p & <- & Hin).
  rewrite Forall_forall in Hok.
  destruct (Hok p Hin) as (_ & _ & _ & _ & Hlines).
  rewrite Forall_forall in Hlines. destruct (Hlines l Hl) as [H1 H2].
  split; [exact H1|]. split; [|exact H2].
  rewrite H1. apply mapAccount_codes.
Qed.

Lemma journal_import_lines_witness :
  In (JournalLine.accountId (JournalLine.mk "1002" "Bank BCA" 100 0))
     ["4000"; "1002"; "1001"; "5001"; "5002"; "9999"].
Proof.
  apply (journal_import_lines (fun _ => "k3x9a") journalCsv
           [ JournalEntry.mk "CSV-R1-k3x9a" "2024-06-07" "R1"
               "Imported Transaction"
               [ JournalLine.mk "4000" "Sales Revenue" 0 100;
                 JournalLine.mk "1002" "Bank BCA" 100 0 ] ]
           (JournalEntry.mk "CSV-R1-k3x9a" "2024-06-07" "R1"
              "Imported Transaction"
              [ JournalLine.mk "4000" "Sales Revenue" 0 100;
                JournalLine.mk "1002" "Bank BCA" 100 0 ])
           (JournalLine.mk "1002" "Bank BCA" 100 0)).
  - vm_compute. reflexivity.
  - left. reflexivity.
  - right. left. reflexivity.
Defined.

(** ** Numbers in the journal file *)





(** ** The PCM conversion of the voice agent *)

Lemma clamp_cases (q : Q) :
  ((q <= -1)%Q
   /\ VoiceAgent.Math_max (-1) (VoiceAgent.Math_min 1 (VoiceAgent.Finite q))
      = VoiceAgent.Finite (-1))
  \/ ((-1 < q < 1)%Q
      /\ VoiceAgent.Math_max (-1) (VoiceAgent.Math_min 1 (VoiceAgent.Finite q))
         = VoiceAgent.Finite q)
  \/ ((1 <= q)%Q
      /\ VoiceAgent.Math_max (-1) (VoiceAgent.Math_min 1 (VoiceAgent.Finite q))
         = VoiceAgent.Finite 1).
Proof.
  cbn [VoiceAgent.Math_max VoiceAgent.Math_min].
  unfold Qmin, Qmax, GenericMinMax.gmin, GenericMinMax.gmax.
  destruct (Qcompare 1 q) eqn:E1.
  - right; right. apply Qeq_alt in E1. split; [rewrite <- E1; apply Qle_refl|].
    reflexivity.
  - right; right. apply Qlt_alt in E1. split; [apply Qlt_le_weak, E1|].
    reflexivity.
  - apply Qgt_alt in E1. destruct (Qcompare (-1) q) eqn:E2.
    + left. apply Qeq_alt in E2. split; [rewrite <- E2; apply Qle_refl|].
      reflexivity.
    + right; left. apply Qlt_alt in E2. split; [split; assumption|reflexivity].
    + left. apply Qgt_alt in E2. split; [apply Qlt_le_weak, E2|reflexivity].
Qed.

Lemma truncate_nonneg (q : Q) :
  0 <= q ->
  inject_Z (VoiceAgent.truncate q) <= q
  /\ q < inject_Z (VoiceAgent.truncate q) + 1.
Proof.
  destruct q as [n d]. unfold VoiceAgent.truncate, Qle, Qlt. cbn.
  intros H. assert (Hn : (0 <= n)%Z) by lia.
  pose proof (Z.quot_rem' n (Z.pos d)) as Hqr.
  pose proof (Z.rem_bound_pos n (Z.pos d) Hn (Pos2Z.is_pos d)) as Hr.
  split; nia.
Qed.

Lemma truncate_nonpos (q : Q) :
  q <= 0 ->
  q <= inject_Z (VoiceAgent.truncate q)
  /\ inject_Z (VoiceAgent.truncate q) - 1 < q.
Proof.
  destruct q as [n d]. unfold VoiceAgent.truncate, Qle, Qlt. cbn.
  intros H. assert (Hn : (n <= 0)%Z) by lia.
  pose proof (Z.quot_rem' n (Z.pos d)) as Hqr.
  pose proof (Z.rem_bound_pos_neg n (Z.pos d) (Pos2Z.is_pos d) Hn) as Hr.
  split; nia.
Qed.

Lemma inject_Z_le (a b : Z) : inject_Z a <= inject_Z b -> (a <= b)%Z.
Proof. rewrite <- Zle_Qle. trivial. Qed.

Lemma inject_Z_lt (a b : Z) : inject_Z a < inject_Z b -> (a < b)%Z.
Proof. rewrite <- Zlt_Qlt. trivial. Qed.

Lemma asInt16_range (bits : Z) :
  (0 <= bits < 65536)%Z -> inInt16 (VoiceAgent.asInt16 bits).
Proof.
  intros H. unfold inInt16, VoiceAgent.asInt16.
  destruct (32768 <=? bits)%Z eqn:E;
    [apply Z.leb_le in E | apply Z.leb_gt in E]; lia.
Qed.

Lemma asInt16_wrap (v : Z) :
  inInt16 v -> VoiceAgent.asInt16 (v mod 65536) = v.
Proof.
  intros [H1 H2]. unfold VoiceAgent.asInt16.
  destruct (32768 <=? v mod 65536)%Z eqn:E;
    [apply Z.leb_le in E | apply Z.leb_gt in E];
    revert E; Z.div_mod_to_equations; lia.
Qed.

Lemma toInt16_range (value : VoiceAgent.float32) :
  inInt16 (VoiceAgent.toInt16 value).
Proof.
  destruct value; cbn [VoiceAgent.toInt16]; try (unfold inInt16; lia).
  apply asInt16_range. apply Z.mod_pos_bound. lia.
Qed.

(** The sample written for one element: clamping saturates, and the
    conversion to 16 bits never wraps around. *)
Lemma sample_pcm16 (x : VoiceAgent.float32) :
  VoiceAgent.toInt16
    (VoiceAgent.scale (VoiceAgent.Math_max (-1) (VoiceAgent.Math_min 1 x)))
  = pcm16 x.
Proof.
  destruct x as [q | | |]; try reflexivity.
  unfold pcm16.
  destruct (clamp_cases q) as [[Hq ->] | [[[Hlo Hhi] ->] | [Hq ->]]].
  - apply Qle_bool_iff in Hq. rewrite Hq. reflexivity.
  - assert (E1 : Qle_bool q (-1) = false).
    { destruct (Qle_bool q (-1)) eqn:E; [|reflexivity].
      apply Qle_bool_iff in E. exfalso. exact (Qlt_not_le _ _ Hlo E). }
    rewrite E1. rewrite (proj2 (Qltb_lt q 1) Hhi).
    cbn [VoiceAgent.scale].
    destruct (JS.Qltb q 0) eqn:E0; cbn [VoiceAgent.toInt16];
      apply asInt16_wrap; unfold inInt16.
    + apply Qltb_lt in E0.
      destruct (truncate_nonpos (q * 32768)) as [Ha Hb]; [lra|].
      split.
      * apply Z.lt_le_incl, inject_Z_lt.
        change (inject_Z (-32768)) with (-32768). lra.
      * apply inject_Z_le.
        destruct (Qlt_le_dec 0 (inject_Z (VoiceAgent.truncate (q * 32768))))
          as [Hpos | Hle].
        -- exfalso. apply inject_Z_lt in Hpos.
           assert (Hone : 1 <= inject_Z (VoiceAgent.truncate (q * 32768))).
           { change 1 with (inject_Z 1). rewrite <- Zle_Qle. lia. }
           lra.
        -- change (inject_Z 32767) with 32767. lra.
    + assert (H0 : 0 <= q).
      { apply Qnot_lt_le. intros Hlt. apply Qltb_lt in Hlt. congruence. }
      destruct (truncate_nonneg (q * 32767)) as [Ha Hb]; [lra|].
      split.
      * apply Z.lt_le_incl, inject_Z_lt.
        change (inject_Z (-32768)) with (-32768). lra.
      * apply inject_Z_le. change (inject_Z 32767) with 32767. lra.
  - assert (E1 : Qle_bool q (-1) = false).
    { destruct (Qle_bool q (-1)) eqn:E; [|reflexivity].
      apply Qle_bool_iff in E. exfalso. lra. }
    rewrite E1.
    rewrite (Qltb_not_lt q 0) by lra. rewrite (Qltb_not_lt q 1) by lra.
    reflexivity.
Qed.

Lemma pcm16_range (x : VoiceAgent.float32) : inInt16 (pcm16 x).
Proof. rewrite <- sample_pcm16. apply toInt16_range. Qed.

Lemma int16Bytes_bytes (v : Z) : Forall isByte (int16Bytes v).
Proof.
  unfold int16Bytes, isByte.
  repeat constructor; Z.div_mod_to_equations; lia.
Qed.

Lemma setInt16_at (pre rest : list Z) (a b : Z) (value : VoiceAgent.float32) :
  VoiceAgent.setInt16 (pre ++ a :: b :: rest) (List.length pre) value
  = Some (pre ++ int16Bytes (VoiceAgent.toInt16 value) ++ rest)%list.
Proof.
  unfold VoiceAgent.setInt16.
  assert (Hle : (List.length pre + 2 <=? List.length (pre ++ a :: b :: rest))%nat
                = true).
  { apply Nat.leb_le. rewrite length_app. cbn. lia. }
  rewrite Hle. f_equal.
  rewrite firstn_app, Nat.sub_diag, firstn_all. cbn [firstn].
  rewrite app_nil_r. f_equal.
  rewrite skipn_app, skipn_all2 by lia.
  replace (List.length pre + 2 - List.length pre)%nat with 2%nat by lia.
  reflexivity.
Qed.

Lemma pcmLoop_spec (float32Array : list VoiceAgent.float32) :
  forall (i : nat) (pre : list Z),
    List.length pre = (i * 2)%nat ->
    VoiceAgent.pcmLoop float32Array i
      (pre ++ VoiceAgent.ArrayBuffer (List.length float32Array * 2))
    = Some (pre ++ flat_map (fun x => int16Bytes (pcm16 x)) float32Array)%list.
Proof.
  induction float32Array as [|x rest IH]; intros i pre Hlen.
  - reflexivity.
  - cbn [VoiceAgent.pcmLoop].
    change (VoiceAgent.ArrayBuffer (List.length (x :: rest) * 2))
      with (0 :: 0 :: VoiceAgent.ArrayBuffer (List.length rest * 2))%Z.
    rewrite <- Hlen, setInt16_at, sample_pcm16.
    rewrite app_assoc, (IH (S i)).
    + cbn [flat_map]. now rewrite <- !app_assoc.
    + rewrite length_app. cbn. lia.
Qed.

Lemma Int16Array_encoded (float32Array : list VoiceAgent.float32) :
  VoiceAgent.Int16Array
    (flat_map (fun x => int16Bytes (pcm16 x)) float32Array)
  = Some (map pcm16 float32Array).
Proof.
  induction float32Array as [|x rest IH]; [reflexivity|].
  cbn [flat_map int16Bytes app map VoiceAgent.Int16Array].
  rewrite IH. do 2 f_equal.
  replace ((pcm16 x mod 65536) mod 256 + 256 * (pcm16 x mod 65536 / 256))%Z
    with (pcm16 x mod 65536)%Z
    by (Z.div_mod_to_equations; lia).
  apply asInt16_wrap, pcm16_range.
Qed.

Lemma flat_map_length2 {A : Type} (f : A -> list Z) (l : list A) :
  (forall x, List.length (f x) = 2%nat) ->
  List.length (flat_map f l) = (2 * List.length l)%nat.
Proof.
  intros Hf. induction l as [|x l IH]; [reflexivity|].
  cbn [flat_map]. rewrite length_app, Hf, IH. cbn. lia.
Qed.

Lemma floatTo16BitPCM_encoded (float32Array : list VoiceAgent.float32) :
  VoiceAgent.floatTo16BitPCM float32Array
  = Some (flat_map (fun x => int16Bytes (pcm16 x)) float32Array).
Proof.
  unfold VoiceAgent.floatTo16BitPCM.
  apply (pcmLoop_spec float32Array 0 []). reflexivity.
Qed.

(** X26. [floatTo16BitPCM] never fails; it returns two bytes per sample,
    and read back as 16-bit integers they are the saturated samples:
    0 for [NaN], -32768 for anything at or below -1 (minus infinity
    included), 32767 for anything at or above 1, and the truncated product
    by 32768 (negative) or 32767 (positive) in between.  The conversion to
    16 bits never wraps around. *)
Theorem floatTo16BitPCM_saturates :
  forall float32Array : list VoiceAgent.float32,
  exists buffer : list Z,
    VoiceAgent.floatTo16BitPCM float32Array = Some buffer
    /\ List.length buffer = (2 * List.length float32Array)%nat
    /\ Forall isByte buffer
    /\ VoiceAgent.Int16Array buffer = Some (map pcm16 float32Array).
Proof.
  intros arr.
  exists (flat_map (fun x => int16Bytes (pcm16 x)) arr).
  split; [|split; [|split]].
  - apply floatTo16BitPCM_encoded.
  - apply flat_map_length2. reflexivity.
  - apply Forall_flat_map, Forall_forall. intros x _. apply int16Bytes_bytes.
  - apply Int16Array_encoded.
Qed.

(** ** Decoding *)

Lemma loss_bound (x y : Q) :
  (0 <= x /\ 0 <= y /\ y <= x /\ x - y < 1 # 16384)%Q
  \/ (x <= 0 /\ y <= 0 /\ x <= y /\ y - x < 1 # 16384)%Q ->
  (Qabs y <= Qabs x /\ Qabs (x - y) < 1 # 16384)%Q.
Proof.
  intros [(Hx & Hy & Hle & Hd) | (Hx & Hy & Hle & Hd)].
  - rewrite (Qabs_pos x), (Qabs_pos y) by assumption.
    split; [assumption|]. apply Qabs_Qlt_condition. split; lra.
  - rewrite (Qabs_neg x), (Qabs_neg y) by assumption.
    split; [lra|]. apply Qabs_Qlt_condition. split; lra.
Qed.

Lemma pcm16_loss (x : Q) :
  (-1 <= x <= 1)%Q ->
  (Qabs (inject_Z (pcm16 (VoiceAgent.Finite x)) / 32768) <= Qabs x
   /\ Qabs (x - inject_Z (pcm16 (VoiceAgent.Finite x)) / 32768) < 1 # 16384)%Q.
Proof.
  intros [Hlo Hhi]. apply loss_bound. unfold pcm16, Qdiv.
  change (/ 32768)%Q with (1 # 32768)%Q.
  destruct (Qle_bool x (-1)) eqn:E1.
  { apply Qle_bool_iff in E1. right.
    change (inject_Z (-32768)) with (-32768)%Q.
    repeat split; lra. }
  destruct (JS.Qltb x 0) eqn:E0.
  { apply Qltb_lt in E0. right.
    destruct (truncate_nonpos (x * 32768)) as [Ha Hb]; [lra|].
    assert (Hneg : (inject_Z (VoiceAgent.truncate (x * 32768)) <= 0)%Q).
    { destruct (Qlt_le_dec 0 (inject_Z (VoiceAgent.truncate (x * 32768))))
        as [Hpos | Hle]; [|exact Hle].
      exfalso. apply inject_Z_lt in Hpos.
      assert (Hone : (1 <= inject_Z (VoiceAgent.truncate (x * 32768)))%Q).
      { change 1%Q with (inject_Z 1). rewrite <- Zle_Qle. lia. }
      lra. }
    repeat split; lra. }
  assert (H0 : (0 <= x)%Q).
  { apply Qnot_lt_le. intros Hlt. apply Qltb_lt in Hlt. congruence. }
  left. destruct (JS.Qltb x 1) eqn:E2.
  - destruct (truncate_nonneg (x * 32767)) as [Ha Hb]; [lra|].
    assert (Hpos : (0 <= inject_Z (VoiceAgent.truncate (x * 32767)))%Q).
    { destruct (Qlt_le_dec (inject_Z (VoiceAgent.truncate (x * 32767))) 0)
        as [Hneg | Hle]; [|exact Hle].
      exfalso. apply inject_Z_lt in Hneg.
      assert (Hone : (inject_Z (VoiceAgent.truncate (x * 32767)) <= -1)%Q).
      { change (-1)%Q with (inject_Z (-1)). rewrite <- Zle_Qle. lia. }
      lra. }
    repeat split; lra.
  - change (inject_Z 32767) with 32767%Q.
    assert (H1 : (1 <= x)%Q).
    { apply Qnot_lt_le. intros Hlt. apply Qltb_lt in Hlt. congruence. }
    repeat split; lra.
Qed.

(** X27. Sending microphone samples through [floatTo16BitPCM] and decoding
    the bytes with [decodeAudioData] (at a supported rate, for a non-empty
    array) returns one sample per input sample, and for every input within
    the nominal range [-1, 1] the decoded sample is never louder than the
    original and differs from it by less than 1/16384. *)
Theorem pcm_round_trip_loss :
  forall (supportedRate : Q -> bool)
    (float32Array : list VoiceAgent.float32) (sampleRate : Q),
    float32Array <> [] ->
    supportedRate sampleRate = true ->
    exists (buffer : list Z) (channelData : list Q),
      VoiceAgent.floatTo16BitPCM float32Array = Some buffer
      /\ VoiceAgent.decodeAudioData supportedRate buffer sampleRate
         = VoiceAgent.AudioBuffer sampleRate channelData
      /\ List.length channelData = List.length float32Array
      /\ forall (i : nat) (x y : Q),
           nth_error float32Array i = Some (VoiceAgent.Finite x) ->
           nth_error channelData i = Some y ->
           (-1 <= x <= 1)%Q ->
           (Qabs y <= Qabs x /\ Qabs (x - y) < 1 # 16384)%Q.
Proof.
  intros supportedRate arr rate Hne Hrate.
  exists (flat_map (fun x => int16Bytes (pcm16 x)) arr),
    (map (fun v => inject_Z v / 32768) (map pcm16 arr)).
  split; [apply floatTo16BitPCM_encoded|]. split; [|split].
  - unfold VoiceAgent.decodeAudioData, VoiceAgent.createBuffer.
    rewrite Int16Array_encoded, Hrate. rewrite !length_map.
    destruct arr; [contradiction|reflexivity].
  - now rewrite !length_map.
  - intros i x y Hx Hy Hrange.
    rewrite !nth_error_map, Hx in Hy. cbn in Hy.
    injection Hy as <-. apply pcm16_loss, Hrange.
Qed.

Lemma pcm_round_trip_loss_witness :
  exists (buffer : list Z) (channelData : list Q),
    VoiceAgent.floatTo16BitPCM
      [VoiceAgent.Finite (1 # 2); VoiceAgent.NaN; VoiceAgent.Finite (-3)]
    = Some buffer
    /\ VoiceAgent.decodeAudioData anyRate buffer 24000
       = VoiceAgent.AudioBuffer 24000 channelData
    /\ List.length channelData = 3%nat
    /\ forall (i : nat) (x y : Q),
         nth_error
           [VoiceAgent.Finite (1 # 2); VoiceAgent.NaN; VoiceAgent.Finite (-3)]
           i = Some (VoiceAgent.Finite x) ->
         nth_error channelData i = Some y ->
         (-1 <= x <= 1)%Q ->
         (Qabs y <= Qabs x /\ Qabs (x - y) < 1 # 16384)%Q.
Proof.
  apply (pcm_round_trip_loss anyRate
           [VoiceAgent.Finite (1 # 2); VoiceAgent.NaN; VoiceAgent.Finite (-3)]
           24000).
  - discriminate.
  - reflexivity.
Defined.

Lemma Int16Array_shape (arrayBuffer : list Z) :
  match VoiceAgent.Int16Array arrayBuffer with
  | None => Nat.odd (List.length arrayBuffer) = true
  | Some ints =>
      List.length arrayBuffer = (2 * List.length ints)%nat
      /\ (Forall isByte arrayBuffer -> Forall inInt16 ints)
  end.
Proof.
  enough (H : forall b : list Z,
             (match VoiceAgent.Int16Array b with
              | None => Nat.odd (List.length b) = true
              | Some ints =>
                  List.length b = (2 * List.length ints)%nat
                  /\ (Forall isByte b -> Forall inInt16 ints)
              end)
             /\ forall x : Z,
                 match VoiceAgent.Int16Array (x :: b) with
                 | None => Nat.odd (List.length (x :: b)) = true
                 | Some ints =>
                     List.length (x :: b) = (2 * List.length ints)%nat
                     /\ (Forall isByte (x :: b) -> Forall inInt16 ints)
                 end)
    by apply H.
  induction b as [|a b [IH1 IH2]].
  - split; [|intros x; reflexivity].
    cbn. split; [reflexivity|constructor].
  - split; [apply IH2|]. intros x.
    cbn [VoiceAgent.Int16Array].
    destruct (VoiceAgent.Int16Array b) as [ints|].
    + destruct IH1 as [Hlen Hbytes]. split.
      * cbn [List.length]. rewrite Hlen. lia.
      * intros Hall. inversion Hall as [|? ? Hx Hrest]; subst.
        inversion Hrest as [|? ? Ha Hb]; subst.
        constructor; [|apply Hbytes, Hb].
        apply asInt16_range. unfold isByte in Hx, Ha. lia.
    + exact IH1.
Qed.

Lemma unitSample_int16 (v : Z) :
  inInt16 v -> unitSample (inject_Z v / 32768).
Proof.
  intros [H1 H2]. rewrite Zle_Qle in H1, H2.
  change (inject_Z (-32768)) with (-32768)%Q in H1.
  change (inject_Z 32767) with 32767%Q in H2.
  unfold unitSample, Qdiv. change (/ 32768)%Q with (1 # 32768)%Q.
  split; lra.
Qed.

(** X28. What [decodeAudioData] does with a byte buffer.  A buffer of odd
    length is rejected with a [RangeError]; an empty buffer, or a rate the
    context does not support, with a [NotSupportedError]; any other buffer
    is decoded into half as many samples as it has bytes, at the requested
    rate, every sample being at least -1 and strictly below 1. *)
Theorem decodeAudioData_outcomes :
  forall (supportedRate : Q -> bool) (arrayBuffer : list Z) (sampleRate : Q),
    Forall isByte arrayBuffer ->
    match VoiceAgent.decodeAudioData supportedRate arrayBuffer sampleRate with
    | VoiceAgent.RangeError => Nat.odd (List.length arrayBuffer) = true
    | VoiceAgent.NotSupportedError =>
        Nat.even (List.length arrayBuffer) = true
        /\ (arrayBuffer = [] \/ supportedRate sampleRate = false)
    | VoiceAgent.AudioBuffer rate channelData =>
        rate = sampleRate
        /\ supportedRate sampleRate = true
        /\ List.length arrayBuffer = (2 * List.length channelData)%nat
        /\ channelData <> []
        /\ Forall unitSample channelData
    end.
Proof.
  intros supportedRate b rate Hbytes.
  unfold VoiceAgent.decodeAudioData, VoiceAgent.createBuffer.
  pose proof (Int16Array_shape b) as Hshape.
  destruct (VoiceAgent.Int16Array b) as [ints|]; [|exact Hshape].
  destruct Hshape as [Hlen Hrange]. specialize (Hrange Hbytes).
  assert (Heven : Nat.even (List.length b) = true).
  { rewrite Hlen, Nat.even_mul. reflexivity. }
  rewrite length_map.
  destruct ints as [|v ints].
  - cbn. split; [exact Heven|]. left.
    destruct b; [reflexivity|discriminate].
  - cbn [List.length Nat.eqb orb].
    destruct (supportedRate rate) eqn:Hrate; cbn [negb].
    + split; [reflexivity|]. split; [reflexivity|]. split.
      * now rewrite length_map.
      * split; [discriminate|].
        apply Forall_map. revert Hrange. apply Forall_impl.
        intros a. apply unitSample_int16.
    + split; [exact Heven|]. right. reflexivity.
Qed.

Lemma decodeAudioData_outcomes_witness :
  VoiceAgent.decodeAudioData anyRate [0; 128; 255; 127]%Z 24000
  = VoiceAgent.AudioBuffer 24000
      [inject_Z (-32768) / 32768; inject_Z 32767 / 32768]%Q
  /\ Forall unitSample [inject_Z (-32768) / 32768; inject_Z 32767 / 32768]%Q.
Proof.
  split; [reflexivity|].
  assert (Hbytes : Forall isByte [0; 128; 255; 127]%Z)
    by (repeat constructor; unfold isByte; lia).
  exact (proj2 (proj2 (proj2 (proj2
           (decodeAudioData_outcomes anyRate [0; 128; 255; 127]%Z 24000
              Hbytes))))).
Defined.
